(** * Rosette drawing and batch generation: model and properties

    A shallow embedding of [task1/draw_figure.py], [task1/program.py] and
    [task2/gen_program.py].  Python integers are [Z]; Python floats
    (coordinates, headings) are idealised as exact rationals [Q]; the
    mutable turtle object is an explicit state threaded through a small
    state-and-exception monad, so that a raised [ValueError] still reports
    the surface state it leaves behind. *)

From Stdlib Require Import ZArith QArith Qround List Sorted Bool Lia.
From Stdlib Require String DecimalString DecimalZ Finite.
Import String.StringSyntax.
Import ListNotations.

Open Scope Z_scope.
Delimit Scope string_scope with string.

(** ** Effects: state threading with Python exceptions *)

Inductive exn : Type :=
| ValueError (msg : String.string).

Definition Prog (S A : Type) : Type := S -> S * (exn + A).

Definition ret {S A : Type} (a : A) : Prog S A :=
  fun s => (s, inr a).

Definition bind {S A B : Type} (m : Prog S A) (k : A -> Prog S B) : Prog S B :=
  fun s =>
    match m s with
    | (s', inr a) => k a s'
    | (s', inl e) => (s', inl e)
    end.

Definition raise {S A : Type} (e : exn) : Prog S A :=
  fun s => (s, inl e).

Definition gets {S A : Type} (f : S -> A) : Prog S A :=
  fun s => (s, inr (f s)).

Definition modify {S : Type} (f : S -> S) : Prog S unit :=
  fun s => (f s, inr tt).

Declare Scope prog_scope.
Delimit Scope prog_scope with prog.
Notation "x <- m ;; k" := (bind m (fun x => k))
  (at level 61, m at next level, right associativity) : prog_scope.
Notation "m ;; k" := (bind m (fun _ => k))
  (at level 61, right associativity) : prog_scope.
Open Scope prog_scope.

(** [for x in l: body(x)] *)
Fixpoint for_each {S A : Type} (l : list A) (body : A -> Prog S unit) : Prog S unit :=
  match l with
  | [] => ret tt
  | x :: rest => body x ;; for_each rest body
  end.

(** [if b: m] *)
Definition when {S : Type} (b : bool) (m : Prog S unit) : Prog S unit :=
  if b then m else ret tt.

(** Python's [range(n)] for an integer [n]: empty when [n <= 0]. *)
Definition range (n : Z) : list Z :=
  map Z.of_nat (seq 0 (Z.to_nat n)).

(** Python's [range(start, stop)]. *)
Definition range_from (start stop : Z) : list Z :=
  map (fun k => start + k) (range (stop - start)).

(** The final state and the outcome of running a program. *)
Definition state_of {S A : Type} (r : S * (exn + A)) : S := fst r.
Definition outcome_of {S A : Type} (r : S * (exn + A)) : exn + A := snd r.

(** ** The pen surface *)

Definition RGBColor : Type := (Z * Z * Z)%type.
Definition Point : Type := (Z * Z)%type.
Definition Vec2D : Type := (Q * Q)%type.

Definition vec_of_point (p : Point) : Vec2D :=
  (inject_Z (fst p), inject_Z (snd p)).

(** The trigonometry of the host surface: where a straight move and an arc
    end.  The drawing code never inspects it, so the development is
    parametric in it. *)
Class Geometry : Type := {
  (** [ahead p h d]: the point [d] units from [p] along heading [h]. *)
  ahead : Vec2D -> Q -> Q -> Vec2D;
  (** [arc_end p h r e]: the end of the counter-clockwise arc of radius [r]
      and sweep [e] degrees that leaves [p] with heading [h]. *)
  arc_end : Vec2D -> Q -> Q -> Q -> Vec2D
}.

Module turtle.

(** What ends up on the canvas. *)
Inductive Stroke : Type :=
| Line (src dst : Vec2D) (width : Z) (color : RGBColor)
| Arc (src : Vec2D) (heading radius extent : Q) (width : Z) (color : RGBColor).

(** The state-changing calls a turtle receives, in the order received. *)
Inductive Call : Type :=
| PenUp
| PenDown
| Goto (p : Vec2D)
| SetHeading (h : Q)
| Forward (d : Q)
| Left (a : Q)
| Circle (r e : Q)
| PenSize (w : Z)
| PenColor (c : RGBColor)
| HideTurtle
| Clear.

(** Modelled from the spec: the PenSurface collaborator (Python's
    [turtle.Turtle], which is not part of the repository).  It holds a
    pose (position, heading, pen-down flag), a pen style (width, colour),
    a visibility flag and the strokes drawn so far; [journal] records the
    state-changing calls received.  Its primitives are total, move and
    turn commands assign or add to the pose exactly, and a stroke is left
    behind only when the pen is down.  A heading is kept as assigned,
    without reduction modulo a full turn. *)
Record Turtle : Type := mkTurtle {
  pos : Vec2D;
  hdg : Q;
  down : bool;
  width : Z;
  color : RGBColor;
  shown : bool;
  canvas : list Stroke;
  journal : list Call
}.

(** A freshly created turtle: at the origin, facing east, pen down,
    width 1, black, visible, nothing drawn. *)
Definition fresh : Turtle :=
  mkTurtle (0, 0)%Q 0%Q true 1 (0, 0, 0) true [] [].

Definition note (c : Call) (t : Turtle) : Turtle :=
  mkTurtle (pos t) (hdg t) (down t) (width t) (color t) (shown t)
           (canvas t) (journal t ++ [c]).

Definition set_down (b : bool) (t : Turtle) : Turtle :=
  mkTurtle (pos t) (hdg t) b (width t) (color t) (shown t)
           (canvas t) (journal t).

Definition set_hdg (h : Q) (t : Turtle) : Turtle :=
  mkTurtle (pos t) h (down t) (width t) (color t) (shown t)
           (canvas t) (journal t).

Definition set_width (w : Z) (t : Turtle) : Turtle :=
  mkTurtle (pos t) (hdg t) (down t) w (color t) (shown t)
           (canvas t) (journal t).

Definition set_color (c : RGBColor) (t : Turtle) : Turtle :=
  mkTurtle (pos t) (hdg t) (down t) (width t) c (shown t)
           (canvas t) (journal t).

Definition set_shown (b : bool) (t : Turtle) : Turtle :=
  mkTurtle (pos t) (hdg t) (down t) (width t) (color t) b
           (canvas t) (journal t).

Definition set_canvas (c : list Stroke) (t : Turtle) : Turtle :=
  mkTurtle (pos t) (hdg t) (down t) (width t) (color t) (shown t)
           c (journal t).

(** Move the pen to [p], leaving stroke [s] behind when the pen is down. *)
Definition move_to (p : Vec2D) (s : Stroke) (t : Turtle) : Turtle :=
  mkTurtle p (hdg t) (down t) (width t) (color t) (shown t)
           (if down t then canvas t ++ [s] else canvas t) (journal t).

(** Modelled from the spec: the queries [isdown()], [position()] and
    [heading()] read the pose and change nothing. *)
Definition isdown : Prog Turtle bool := gets down.
Definition position : Prog Turtle Vec2D := gets pos.
Definition heading : Prog Turtle Q := gets hdg.

(** Modelled from the spec: [penup()] and [pendown()] set the pen flag. *)
Definition penup : Prog Turtle unit :=
  modify (fun t => set_down false (note PenUp t)).

Definition pendown : Prog Turtle unit :=
  modify (fun t => set_down true (note PenDown t)).

(** Modelled from the spec: [goto(p)] moves to [p] whatever the heading,
    drawing the segment when the pen is down. *)
Definition goto (p : Vec2D) : Prog Turtle unit :=
  modify (fun t =>
    move_to p (Line (pos t) p (width t) (color t)) (note (Goto p) t)).

(** Modelled from the spec: [setheading(h)] assigns the heading. *)
Definition setheading (h : Q) : Prog Turtle unit :=
  modify (fun t => set_hdg h (note (SetHeading h) t)).

(** Modelled from the spec: [forward(d)] moves [d] units along the
    heading, drawing the segment when the pen is down. *)
Definition forward `{Geometry} (d : Q) : Prog Turtle unit :=
  modify (fun t =>
    let p := ahead (pos t) (hdg t) d in
    move_to p (Line (pos t) p (width t) (color t)) (note (Forward d) t)).

(** Modelled from the spec: [left(a)] adds [a] degrees to the heading. *)
Definition left (a : Q) : Prog Turtle unit :=
  modify (fun t => set_hdg (hdg t + a)%Q (note (Left a) t)).

(** Modelled from the spec: [circle(r, e)] follows an arc of radius [r]
    through [e] degrees, turning the heading by [e] and drawing the arc
    when the pen is down. *)
Definition circle `{Geometry} (r e : Q) : Prog Turtle unit :=
  modify (fun t =>
    let p := arc_end (pos t) (hdg t) r e in
    set_hdg (hdg t + e)%Q
      (move_to p (Arc (pos t) (hdg t) r e (width t) (color t))
               (note (Circle r e) t))).

(** Modelled from the spec: [pensize(w)], [pencolor(r, g, b)] set the pen
    style; [hideturtle()] clears the visibility flag; [clear()] wipes this
    turtle's strokes and keeps its state; [home()] is [goto(0, 0)] followed
    by [setheading(0)]. *)
Definition pensize (w : Z) : Prog Turtle unit :=
  modify (fun t => set_width w (note (PenSize w) t)).

Definition pencolor (c : RGBColor) : Prog Turtle unit :=
  modify (fun t => set_color c (note (PenColor c) t)).

Definition hideturtle : Prog Turtle unit :=
  modify (fun t => set_shown false (note HideTurtle t)).

Definition clear : Prog Turtle unit :=
  modify (fun t => set_canvas [] (note Clear t)).

Definition home : Prog Turtle unit :=
  goto (0, 0)%Q ;; setheading 0%Q.

End turtle.

(** ** task1/draw_figure.py *)

Module DrawFigure.
Import turtle.

Section WithGeometry.
Context `{Geometry}.

Definition _draw_petal (size : Z) : Prog Turtle unit :=
  start_position <- position ;;
  start_heading <- heading ;;
  was_down <- isdown ;;
  penup ;;
  forward (inject_Z size) ;;
  pendown ;;
  left 60 ;;
  circle (inject_Z size) 120 ;;
  left 120 ;;
  circle (inject_Z size) 120 ;;
  penup ;;
  goto start_position ;;
  setheading start_heading ;;
  when was_down pendown.

Definition draw (base_elements size : Z) (color : RGBColor)
           (line_width : Z) (position : Point) : Prog Turtle unit :=
  if negb ((3 <=? base_elements) && (base_elements <=? 15)) then
    raise (ValueError "Parameter 'base_elements' must be in range 3..15."%string)
  else if negb ((1 <=? line_width) && (line_width <=? 5)) then
    raise (ValueError "Parameter 'line_width' must be in range 1..5."%string)
  else
    was_down <- isdown ;;
    original_position <- turtle.position ;;
    original_heading <- heading ;;
    penup ;;
    goto (vec_of_point position) ;;
    pendown ;;
    pensize line_width ;;
    pencolor color ;;
    let rotation_angle := (360 / inject_Z base_elements)%Q in
    for_each (range base_elements) (fun index =>
      setheading (rotation_angle * inject_Z index)%Q ;;
      _draw_petal size) ;;
    hideturtle ;;
    penup ;;
    goto original_position ;;
    setheading original_heading ;;
    when was_down pendown.

End WithGeometry.

End DrawFigure.

(** ** Process-wide colour mode *)

(** The module-level flag [_COLOR_MODE_SET] together with the colour mode
    of the turtle library it guards ([turtle.colormode()], 1 until
    changed). *)
Record ColorState : Type := mkColorState {
  _COLOR_MODE_SET : bool;
  colormode : Z
}.

Definition COLOR_MODE : Z := 255.

(** The state in which a script starts: flag clear, library mode [cm]. *)
Definition module_loaded (cm : Z) : ColorState := mkColorState false cm.

(** Run a program on one component of a larger state. *)
Definition focus {S T A : Type} (get : S -> T) (put : T -> S -> S)
           (m : Prog T A) : Prog S A :=
  fun s => let (t', r) := m (get s) in (put t' s, r).

(** ** task1/program.py *)

Module Program.

Definition CompositionConfig : Type := (Z * Z * RGBColor * Z * Point)%type.

Definition COMPOSITIONS : list CompositionConfig :=
  [ (7, 140, (0, 120, 255), 2, (-260, 60));
    (10, 110, (255, 105, 0), 3, (0, -20));
    (3, 160, (60, 200, 120), 4, (260, 80)) ].

Definition ensure_colormode_255 : Prog ColorState unit :=
  flag <- gets _COLOR_MODE_SET ;;
  when (negb flag)
    (modify (fun s => mkColorState (_COLOR_MODE_SET s) COLOR_MODE) ;;
     modify (fun s => mkColorState true (colormode s))).

End Program.

(** ** task2/gen_program.py *)

(** The random source ([random.Random], supplied by the host): a generator
    state, seeding, and the draw behind [randint] on a non-empty range. *)
Class RandomSource : Type := {
  Rng : Type;
  seed_state : Z -> Rng;
  next_int : Z -> Z -> Rng -> Z * Rng
}.

(** The documented contract of [randint(a, b)]: a result [N] with
    [a <= N <= b]. *)
Definition randint_contract (R : RandomSource) : Prop :=
  forall (a b : Z) (g : Rng), a <= b -> a <= fst (next_int a b g) <= b.

Module GenProgram.
Import turtle.

Definition IMAGE_COUNT : Z := 100.
Definition BASE_ELEMENTS_RANGE : Z * Z := (3, 15).
Definition LINE_WIDTH_RANGE : Z * Z := (1, 5).
Definition SIZE_RANGE : Z * Z := (80, 180).
Definition POSITION_LIMIT_X : Z := 450.
Definition POSITION_LIMIT_Y : Z := 300.

Definition ensure_colormode_255 : Prog ColorState unit :=
  flag <- gets _COLOR_MODE_SET ;;
  when (negb flag)
    (modify (fun s => mkColorState (_COLOR_MODE_SET s) COLOR_MODE) ;;
     modify (fun s => mkColorState true (colormode s))).

(** The dictionary returned by [generate_parameters], one field per key. *)
Record Parameters : Type := mkParameters {
  base_elements : Z;
  size : Z;
  color : RGBColor;
  line_width : Z;
  position : Point
}.

(** Where [save_canvas_png] is asked to write. *)
Inductive OutputPath : Type :=
| ImageFile (index : Z)
| ScreenshotFile.

Section WithHost.
Context `{Geometry} `{RandomSource}.

(** [rng.randint(a, b)]; an empty range is a [ValueError]. *)
Definition randint (a b : Z) : Prog Rng Z :=
  fun g =>
    if a <=? b then let (v, g') := next_int a b g in (g', inr v)
    else (g, inl (ValueError "empty range for randrange()"%string)).

Definition generate_parameters : Prog Rng Parameters :=
  base_elements <- randint (fst BASE_ELEMENTS_RANGE) (snd BASE_ELEMENTS_RANGE) ;;
  size <- randint (fst SIZE_RANGE) (snd SIZE_RANGE) ;;
  red <- randint 0 255 ;;
  green <- randint 0 255 ;;
  blue <- randint 0 255 ;;
  line_width <- randint (fst LINE_WIDTH_RANGE) (snd LINE_WIDTH_RANGE) ;;
  let max_x := Z.max (POSITION_LIMIT_X - size) 0 in
  let max_y := Z.max (POSITION_LIMIT_Y - size) 0 in
  x <- randint (- max_x) max_x ;;
  y <- randint (- max_y) max_y ;;
  ret (mkParameters base_elements size (red, green, blue) line_width (x, y)).

(** The frame of [main] together with what the process leaves behind:
    the two generators (the script's own and the [random] module's),
    the colour-mode state, the turtle, the lines printed and the
    canvases handed to the exporter. *)
Record Process : Type := mkProcess {
  rng : Rng;
  module_rng : Rng;
  colors : ColorState;
  artist : Turtle;
  last_parameters : option Parameters;
  stdout : list (Z * Parameters);
  exported : list (OutputPath * list Stroke)
}.

Definition put_rng (g : Rng) (p : Process) : Process :=
  mkProcess g (module_rng p) (colors p) (artist p) (last_parameters p)
            (stdout p) (exported p).

Definition put_module_rng (g : Rng) (p : Process) : Process :=
  mkProcess (rng p) g (colors p) (artist p) (last_parameters p)
            (stdout p) (exported p).

Definition put_colors (c : ColorState) (p : Process) : Process :=
  mkProcess (rng p) (module_rng p) c (artist p) (last_parameters p)
            (stdout p) (exported p).

Definition put_artist (t : Turtle) (p : Process) : Process :=
  mkProcess (rng p) (module_rng p) (colors p) t (last_parameters p)
            (stdout p) (exported p).

Definition put_last_parameters (l : option Parameters) (p : Process) : Process :=
  mkProcess (rng p) (module_rng p) (colors p) (artist p) l
            (stdout p) (exported p).

Definition print (line : Z * Parameters) : Prog Process unit :=
  modify (fun p =>
    mkProcess (rng p) (module_rng p) (colors p) (artist p)
              (last_parameters p) (stdout p ++ [line]) (exported p)).

(** The exporter receives the canvas as it is at the time of the call. *)
Definition save_canvas_png (path : OutputPath) : Prog Process unit :=
  modify (fun p =>
    mkProcess (rng p) (module_rng p) (colors p) (artist p)
              (last_parameters p) (stdout p)
              (exported p ++ [(path, canvas (artist p))])).

Definition on_artist {A : Type} (m : Prog Turtle A) : Prog Process A :=
  focus artist put_artist m.

(** One iteration of the batch loop. *)
Definition iteration (index : Z) : Prog Process unit :=
  on_artist clear ;;
  on_artist penup ;;
  on_artist home ;;
  on_artist pendown ;;
  parameters <- focus rng put_rng generate_parameters ;;
  modify (put_last_parameters (Some parameters)) ;;
  print (index, parameters) ;;
  on_artist (DrawFigure.draw (base_elements parameters) (size parameters)
               (color parameters) (line_width parameters)
               (position parameters)) ;;
  save_canvas_png (ImageFile index).

(** [main] with the command-line seed and the number of images as
    arguments.  At entry [rng] and [module_rng] hold the states that
    [random.Random()] and the [random] module start in when nothing seeds
    them.  Window management ([Screen] set-up, [tracer], [update], [bye]),
    [speed] and the creation of the output directory do not touch the
    modelled state. *)
Definition run (image_count : Z) (seed : option Z) : Prog Process unit :=
  match seed with
  | Some s => modify (put_module_rng (seed_state s))
  | None => ret tt
  end ;;
  match seed with
  | Some s => modify (put_rng (seed_state s))
  | None => ret tt
  end ;;
  focus colors put_colors ensure_colormode_255 ;;
  modify (put_artist fresh) ;;
  on_artist hideturtle ;;
  modify (put_last_parameters None) ;;
  for_each (range_from 1 (image_count + 1)) iteration ;;
  last <- gets last_parameters ;;
  match last with
  | Some _ => save_canvas_png ScreenshotFile
  | None => ret tt
  end ;;
  on_artist hideturtle.

Definition main (seed : option Z) : Prog Process unit :=
  run IMAGE_COUNT seed.

End WithHost.

End GenProgram.

(** ** Formatting and paths *)

Module Fmt.

(** [k] zeros in front of a digit sequence. *)
Fixpoint pad (k : nat) (d : Decimal.uint) : Decimal.uint :=
  match k with
  | O => d
  | S k' => Decimal.D0 (pad k' d)
  end.

(** Zero-fill a digit sequence to at least [width] digits. *)
Definition zero_fill (width : nat) (d : Decimal.uint) : Decimal.uint :=
  pad (width - Decimal.nb_digits d) d.

(** Python's [f"{i:03d}"]: the decimal digits of [i], zero-filled to a
    total width of three characters, the sign of a negative number
    counting as one of them. *)
Definition format_03d (i : Z) : String.string :=
  DecimalString.NilEmpty.string_of_int
    match Z.to_int i with
    | Decimal.Pos d => Decimal.Pos (zero_fill 3 d)
    | Decimal.Neg d => Decimal.Neg (zero_fill 2 d)
    end.

(** Python's [int(s)] on an optionally signed digit string. *)
Definition parse_int (s : String.string) : option Z :=
  option_map Z.of_int (DecimalString.NilEmpty.int_of_string s).

End Fmt.

(** A [pathlib.Path] whose last component is a stem followed by a suffix. *)
Record Path : Type := mkPath {
  parent : String.string;
  stem : String.string;
  suffix : String.string
}.

(** [path.with_suffix(s)] *)
Definition with_suffix (p : Path) (s : String.string) : Path :=
  mkPath (parent p) (stem p) s.

Definition path_eqb (p q : Path) : bool :=
  String.eqb (parent p) (parent q) && String.eqb (stem p) (stem q) &&
  String.eqb (suffix p) (suffix q).

(** ** The export collaborators *)

(** The raster library (Pillow's [Image] module, supplied by the host):
    decoding a PostScript drawing, the bounding box of the non-empty part
    of an image ([None] when there is none), cropping. *)
Class Pillow : Type := {
  Image : Type;
  Box : Type;
  open_eps : list turtle.Stroke -> Image;
  getbbox : Image -> option Box;
  crop : Image -> Box -> Image
}.

Module ExportPipeline.
Section WithPillow.
Context `{Pillow}.

Inductive FileContent : Type :=
| Postscript (drawing : list turtle.Stroke)
| Png (image : Image).

(** What lies outside the interpreter: the files, the directories that
    exist, the notices printed, and whether the import of Pillow
    succeeded when the script was loaded ([Image is not None]). *)
Record Host : Type := mkHost {
  files : Path -> option FileContent;
  directories : String.string -> bool;
  notices : list Path;
  pillow_available : bool
}.

(** [directory.mkdir(parents=True, exist_ok=True)] *)
Definition mkdir (directory : String.string) (h : Host) : Host :=
  mkHost (files h)
         (fun d => if String.eqb d directory then true else directories h d)
         (notices h) (pillow_available h).

(** Create or overwrite the file at [p]. *)
Definition write (p : Path) (c : FileContent) (h : Host) : Host :=
  mkHost (fun q => if path_eqb q p then Some c else files h q)
         (directories h) (notices h) (pillow_available h).

(** [p.unlink()] *)
Definition unlink (p : Path) (h : Host) : Host :=
  mkHost (fun q => if path_eqb q p then None else files h q)
         (directories h) (notices h) (pillow_available h).

(** [p.exists()] *)
Definition file_exists (p : Path) (h : Host) : bool :=
  match files h p with
  | Some _ => true
  | None => false
  end.

(** The notice that the PostScript file at [p] was kept. *)
Definition say_fallback (p : Path) (h : Host) : Host :=
  mkHost (files h) (directories h) (notices h ++ [p]) (pillow_available h).

(** [save_canvas_png(screen, path)], with the drawing on the screen's
    canvas as first argument.  [Image.open(eps_path)] decodes the file that
    [canvas.postscript] has just written. *)
Definition save_canvas_png (drawing : list turtle.Stroke) (path : Path)
  : Prog Host unit :=
  modify (mkdir (parent path)) ;;
  let eps_path := with_suffix path ".eps"%string in
  modify (write eps_path (Postscript drawing)) ;;
  available <- gets pillow_available ;;
  if negb available then
    modify (say_fallback eps_path)
  else
    let image := open_eps drawing in
    let bounding_box := getbbox image in
    let image :=
      match bounding_box with
      | Some box => crop image box
      | None => image
      end in
    modify (write path (Png image)) ;;
    present <- gets (file_exists eps_path) ;;
    when present (modify (unlink eps_path)).

End WithPillow.
End ExportPipeline.

(** ** task1/program.py, the script *)

Module ProgramScript.
Import turtle.

Definition PNG_OUTPUT_PATH : Path :=
  mkPath "task1"%string "screenshot"%string ".png"%string.

Section WithHost.
Context `{Geometry} `{Pillow}.

(** The frame of [main] and what it acts on: the colour-mode state, the
    painter, the files and the console. *)
Record Session : Type := mkSession {
  colors : ColorState;
  painter : Turtle;
  host : ExportPipeline.Host
}.

Definition put_colors (c : ColorState) (s : Session) : Session :=
  mkSession c (painter s) (host s).

Definition put_painter (t : Turtle) (s : Session) : Session :=
  mkSession (colors s) t (host s).

Definition put_host (h : ExportPipeline.Host) (s : Session) : Session :=
  mkSession (colors s) (painter s) h.

Definition on_painter {A : Type} (m : Prog Turtle A) : Prog Session A :=
  focus painter put_painter m.

(** [main] with the list of compositions as argument.  Window management
    ([Screen] set-up, [title], [update], [exitonclick]) and [speed] do not
    touch the modelled state. *)
Definition run (compositions : list Program.CompositionConfig)
  : Prog Session unit :=
  focus colors put_colors Program.ensure_colormode_255 ;;
  modify (put_painter fresh) ;;
  on_painter hideturtle ;;
  for_each compositions (fun composition =>
    let '(base_elements, size, color, line_width, position) := composition in
    on_painter (DrawFigure.draw base_elements size color line_width position)) ;;
  drawing <- gets (fun s => canvas (painter s)) ;;
  focus host put_host (ExportPipeline.save_canvas_png drawing PNG_OUTPUT_PATH) ;;
  on_painter hideturtle.

Definition main : Prog Session unit := run Program.COMPOSITIONS.

End WithHost.
End ProgramScript.

(** ** task2/gen_program.py, the files it names *)

Module GenFiles.

(** [OUTPUT_DIR / f"img_{index:03d}.png"] and [SCREENSHOT_PATH]. *)
Definition path_of (p : GenProgram.OutputPath) : Path :=
  match p with
  | GenProgram.ImageFile index =>
      mkPath "task2/out"%string
             (String.append "img_"%string (Fmt.format_03d index)) ".png"%string
  | GenProgram.ScreenshotFile =>
      mkPath "task2"%string "screenshot"%string ".png"%string
  end.

(** What the exporter does with the canvases handed to it, in order. *)
Definition replay `{Pillow}
           (handed : list (GenProgram.OutputPath * list turtle.Stroke))
  : Prog ExportPipeline.Host unit :=
  for_each handed (fun request =>
    ExportPipeline.save_canvas_png (snd request) (path_of (fst request))).

End GenFiles.

(** ** Concrete hosts, for running the model *)

(** A rational stand-in for the host's trigonometry: Bhaskara's
    approximation of the sine, in degrees. *)
Module Bhaskara.

Definition wrap360 (a : Q) : Q :=
  (a - 360 * inject_Z (Qfloor (a / 360)))%Q.

Definition half_wave (x : Q) : Q :=
  (4 * x * (180 - x) / (40500 - x * (180 - x)))%Q.

Definition sin_deg (a : Q) : Q :=
  let x := wrap360 a in
  Qred (if Qle_bool x 180 then half_wave x else - half_wave (x - 180))%Q.

Definition cos_deg (a : Q) : Q := sin_deg (a + 90)%Q.

Definition step (p : Vec2D) (h d : Q) : Vec2D :=
  (Qred (fst p + d * cos_deg h), Qred (snd p + d * sin_deg h))%Q.

Definition geometry : Geometry :=
  {| ahead := step;
     arc_end := fun p h r e => step p (h + e / 2)%Q (2 * r * sin_deg (e / 2))%Q |}.

End Bhaskara.

(** A linear congruential generator as random source. *)
Module Lcg.

Definition modulus : Z := 2147483648.

Definition advance (g : Z) : Z := (1103515245 * g + 12345) mod modulus.

Definition source : RandomSource :=
  {| Rng := Z;
     seed_state := fun s => s mod modulus;
     next_int := fun a b g =>
       let g' := advance g in (a + g' mod (b - a + 1), g') |}.

End Lcg.

(** Sample states. *)
Module Samples.

(** A turtle away from home: pen up, heading north-east, visible, with a
    pen style of its own. *)
Definition wandering : turtle.Turtle :=
  turtle.mkTurtle (5, -3)%Q 45%Q false 9 (10, 20, 30) true [] [].

(** Two processes that differ in everything a seeded run does not set:
    generator states, colour mode, turtle, remembered parameters, files. *)
Definition process_a : @GenProgram.Process Lcg.source :=
  @GenProgram.mkProcess Lcg.source 7 9 (module_loaded 1) turtle.fresh None [] [].

Definition process_b : @GenProgram.Process Lcg.source :=
  @GenProgram.mkProcess Lcg.source 1234 0 (mkColorState true 255) wandering
    (Some (GenProgram.mkParameters 3 80 (0, 0, 0) 1 (0, 0))) []
    [(GenProgram.ScreenshotFile, [])].

End Samples.

(** ** Vocabulary of the properties *)

Section Vocabulary.
Import turtle.
Context `{Geometry}.

(** The pose of a surface: position, heading, pen-down state. *)
Definition pose (t : Turtle) : Vec2D * Q * bool := (pos t, hdg t, down t).

(** The calls that trace a petal of radius [size]: pen-up advance, pen
    down, turn 60, arc of 120, turn 120, arc of 120. *)
Definition petal_outline (size : Z) : list Call :=
  [ PenUp; Forward (inject_Z size); PenDown; Left 60;
    Circle (inject_Z size) 120; Left 120; Circle (inject_Z size) 120 ].

(** The calls that put a saved pose back. *)
Definition restore_pose (p : Vec2D) (h : Q) (was_down : bool) : list Call :=
  [ PenUp; Goto p; SetHeading h ] ++ (if was_down then [PenDown] else []).

(** The two arcs of the petal drawn from position [p] and heading [h]. *)
Definition petal_strokes (p : Vec2D) (h : Q) (size w : Z) (c : RGBColor)
  : list Stroke :=
  let r := inject_Z size in
  let p1 := ahead p h r in
  let h1 := (h + 60)%Q in
  let p2 := arc_end p1 h1 r 120 in
  [ Arc p1 h1 r 120 w c; Arc p2 (h1 + 120 + 120)%Q r 120 w c ].

(** The angular slots of a rosette of [n] petals. *)
Definition petal_headings (n : Z) : list Q :=
  map (fun index => (360 / inject_Z n * inject_Z index)%Q) (range n).

(** Everything one petal of the rosette adds to the journal. *)
Definition petal_calls (centre : Vec2D) (size : Z) (h : Q) : list Call :=
  SetHeading h :: petal_outline size ++ restore_pose centre h true.

(** The calls with which [draw] prepares the pen. *)
Definition prepare_pen (centre : Vec2D) (w : Z) (c : RGBColor) : list Call :=
  [ PenUp; Goto centre; PenDown; PenSize w; PenColor c ].

(** A configuration that [draw] is specified for: petal count in 3..15,
    line width in 1..5, positive size. *)
Definition valid_config (n lw size : Z) : Prop :=
  3 <= n <= 15 /\ 1 <= lw <= 5 /\ 0 < size.

(** [m] repeated [n] times. *)
Fixpoint times {S : Type} (n : nat) (m : Prog S unit) : Prog S unit :=
  match n with
  | O => ret tt
  | Datatypes.S k => m ;; times k m
  end.

End Vocabulary.

(** The domain of the sampled parameters. *)
Definition in_domain (ps : GenProgram.Parameters) : Prop :=
  3 <= GenProgram.base_elements ps <= 15 /\
  80 <= GenProgram.size ps <= 180 /\
  0 <= fst (fst (GenProgram.color ps)) <= 255 /\
  0 <= snd (fst (GenProgram.color ps)) <= 255 /\
  0 <= snd (GenProgram.color ps) <= 255 /\
  1 <= GenProgram.line_width ps <= 5 /\
  Z.abs (fst (GenProgram.position ps)) <=
    Z.max (GenProgram.POSITION_LIMIT_X - GenProgram.size ps) 0 /\
  Z.abs (snd (GenProgram.position ps)) <=
    Z.max (GenProgram.POSITION_LIMIT_Y - GenProgram.size ps) 0.

Section BatchVocabulary.
Import GenProgram.
Context `{RandomSource}.

(** Two processes agree when their generators are in the same state, they
    have printed the same lines and they remember the same last
    parameters.  Everything else (the turtle, the colour mode, the
    [random] module's generator, the exported files) is free to differ. *)
Definition agree (p1 p2 : Process) : Prop :=
  rng p1 = rng p2 /\ stdout p1 = stdout p2 /\
  last_parameters p1 = last_parameters p2.

(** A program is coherent when, run from two processes that agree, it
    ends in processes that agree, with the same outcome. *)
Definition coherent {A : Type} (m : Prog Process A) : Prop :=
  forall p1 p2 : Process,
    agree p1 p2 ->
    agree (state_of (m p1)) (state_of (m p2)) /\
    outcome_of (m p1) = outcome_of (m p2).

End BatchVocabulary.

(** The part of [GenProgram.run] that follows the set-up: the loop over
    the image indices, the final screenshot, the last [hideturtle]. *)
Definition after_setup `{Geometry} `{RandomSource} (indices : list Z)
  : Prog GenProgram.Process unit :=
  for_each indices GenProgram.iteration ;;
  last <- gets GenProgram.last_parameters ;;
  match last with
  | Some _ => GenProgram.save_canvas_png GenProgram.ScreenshotFile
  | None => ret tt
  end ;;
  GenProgram.on_artist turtle.hideturtle.

(** ** Vocabulary of the further properties *)

(** A raster library for running the model: an image is the drawing it
    shows together with a mark telling whether it was cropped; only an
    empty drawing has no bounding box. *)
Module Sketch.

Definition pillow : Pillow :=
  {| Image := (list turtle.Stroke * bool)%type;
     Box := nat;
     open_eps := fun drawing => (drawing, false);
     getbbox := fun image =>
       match fst image with
       | [] => None
       | _ :: _ => Some (length (fst image))
       end;
     crop := fun image _ => (fst image, true) |}.

(** An empty disk, with or without Pillow. *)
Definition blank (available : bool) : @ExportPipeline.Host pillow :=
  @ExportPipeline.mkHost pillow (fun _ => None) (fun _ => false) [] available.

End Sketch.

(** A session of the fixed-list script: a used turtle lying around,
    Pillow installed, an empty disk. *)
Definition session : @ProgramScript.Session Sketch.pillow :=
  @ProgramScript.mkSession Sketch.pillow (module_loaded 1) Samples.wandering
                           (Sketch.blank true).

Section FurtherVocabulary.
Import turtle.
Context `{Geometry}.

(** The strokes of a whole rosette. *)
Definition rosette_strokes (n size : Z) (c : RGBColor) (lw : Z)
           (centre : Point) : list Stroke :=
  concat (map (fun h => petal_strokes (vec_of_point centre) h size lw c)
              (petal_headings n)).

(** The strokes of a composition of the fixed list. *)
Definition composition_strokes (cfg : Program.CompositionConfig)
  : list Stroke :=
  let '(n, size, c, lw, centre) := cfg in rosette_strokes n size c lw centre.

(** A composition that passes the validation of [draw]. *)
Definition accepted (cfg : Program.CompositionConfig) : Prop :=
  let '(n, _, _, lw, _) := cfg in 3 <= n <= 15 /\ 1 <= lw <= 5.

(** An arc of a petal of radius [size] in the given pen style. *)
Definition is_petal_arc (size lw : Z) (c : RGBColor) (s : Stroke) : Prop :=
  match s with
  | Arc _ _ radius extent w col =>
      radius = inject_Z size /\ extent = 120%Q /\ w = lw /\ col = c
  | Line _ _ _ _ => False
  end.

(** The strokes of the rosette that sampled parameters describe. *)
Definition parameters_strokes (ps : GenProgram.Parameters) : list Stroke :=
  rosette_strokes (GenProgram.base_elements ps) (GenProgram.size ps)
                  (GenProgram.color ps) (GenProgram.line_width ps)
                  (GenProgram.position ps).

End FurtherVocabulary.

(** The image that ends up in the PNG file: the decoded drawing, cropped
    to its bounding box when it has one. *)
Definition rendered `{Pillow} (drawing : list turtle.Stroke) : Image :=
  match getbbox (open_eps drawing) with
  | Some box => crop (open_eps drawing) box
  | None => open_eps drawing
  end.

(** The first [k] parameter sets a generator yields when the sampler is
    called again and again. *)
Fixpoint samples `{RandomSource} (k : nat) (g : Rng)
  : list GenProgram.Parameters :=
  match k with
  | O => []
  | S k' =>
      match GenProgram.generate_parameters g with
      | (g', inr ps) => ps :: samples k' g'
      | (_, inl _) => []
      end
  end.

(** The generator a run samples from: the seeded one when a seed is
    given, else the one the process started with. *)
Definition sampling_state `{RandomSource} (seed : option Z) (g : Rng) : Rng :=
  match seed with
  | Some s => seed_state s
  | None => g
  end.

(** What the batch hands to the exporter for a printed line: the image
    file of that index, showing the rosette of that line alone. *)
Definition image_of `{Geometry} (line : Z * GenProgram.Parameters)
  : GenProgram.OutputPath * list turtle.Stroke :=
  (GenProgram.ImageFile (fst line), parameters_strokes (snd line)).

(** The screenshot handed over at the end of a batch: the rosette of the
    last printed line, when there is one. *)
Definition screenshot_of `{Geometry} (lines : list (Z * GenProgram.Parameters))
  : list (GenProgram.OutputPath * list turtle.Stroke) :=
  match rev lines with
  | [] => []
  | line :: _ => [(GenProgram.ScreenshotFile, parameters_strokes (snd line))]
  end.

(** The message [draw] raises with: the petal count is checked first. *)
Definition rejection (n : Z) : String.string :=
  if (3 <=? n) && (n <=? 15)
  then "Parameter 'line_width' must be in range 1..5."%string
  else "Parameter 'base_elements' must be in range 3..15."%string.

(** * Properties *)

(** ** Stepping through programs *)

Lemma bind_run {S A B : Type} (m : Prog S A) (k : A -> Prog S B)
      (s s' : S) (a : A) :
  m s = (s', inr a) -> bind m k s = k a s'.
Proof. intros E. unfold bind. now rewrite E. Qed.

Lemma bind_fail {S A B : Type} (m : Prog S A) (k : A -> Prog S B)
      (s s' : S) (e : exn) :
  m s = (s', inl e) -> bind m k s = (s', inl e).
Proof. intros E. unfold bind. now rewrite E. Qed.

Lemma range_length (n : Z) : length (range n) = Z.to_nat n.
Proof. unfold range. now rewrite length_map, length_seq. Qed.

Ltac run_step := erewrite bind_run by reflexivity.
Ltac flatten_apps := repeat rewrite <- app_assoc; cbn [app].

(** Unfold the monad, the turtle primitives and the record projections,
    leaving geometry and arithmetic alone. *)
Ltac turtle_eval :=
  cbv [bind ret gets modify when raise
       turtle.position turtle.heading turtle.isdown turtle.penup
       turtle.pendown turtle.goto turtle.setheading turtle.forward
       turtle.left turtle.circle turtle.pensize turtle.pencolor
       turtle.hideturtle turtle.clear turtle.home
       turtle.note turtle.set_down turtle.set_hdg turtle.set_width
       turtle.set_color turtle.set_shown turtle.set_canvas turtle.move_to
       turtle.pos turtle.hdg turtle.down turtle.width turtle.color
       turtle.shown turtle.canvas turtle.journal].

(** ** The petal *)

Section PetalFacts.
Import turtle DrawFigure.
Context `{Geometry}.

(** The complete effect of [_draw_petal]. *)
Lemma draw_petal_run (size : Z) (t : Turtle) :
  _draw_petal size t =
  (mkTurtle (pos t) (hdg t) (down t) (width t) (color t) (shown t)
     (canvas t ++ petal_strokes (pos t) (hdg t) size (width t) (color t))
     (journal t ++ petal_outline size ++ restore_pose (pos t) (hdg t) (down t)),
   inr tt).
Proof.
  destruct t as [p h d w c v cv j].
  unfold _draw_petal, petal_strokes, petal_outline, restore_pose.
  destruct d; turtle_eval; flatten_apps; reflexivity.
Qed.

End PetalFacts.

(** ** The rosette *)

Section RosetteFacts.
Import turtle DrawFigure.
Context `{Geometry}.

(** The petal loop, started with the pen down: every petal is drawn from
    the same position, and only the heading of the last slot remains. *)
Lemma petals_run (size : Z) (angle : Q) (indices : list Z) (t : Turtle) :
  down t = true ->
  for_each indices
    (fun index => setheading (angle * inject_Z index)%Q ;; _draw_petal size) t =
  (mkTurtle (pos t)
     (fold_left (fun _ index => (angle * inject_Z index)%Q) indices (hdg t))
     true (width t) (color t) (shown t)
     (canvas t ++
      concat (map (fun index =>
                petal_strokes (pos t) (angle * inject_Z index)%Q size
                              (width t) (color t)) indices))
     (journal t ++
      concat (map (fun index =>
                petal_calls (pos t) size (angle * inject_Z index)%Q) indices)),
   inr tt).
Proof.
  revert t. induction indices as [|index rest IH]; intros t Hdown.
  - destruct t as [p h d w c v cv j]. cbn in Hdown. subst d.
    cbn. now rewrite !app_nil_r.
  - destruct t as [p h d w c v cv j]. cbn in Hdown. subst d.
    cbn [for_each].
    erewrite bind_run.
    2:{ erewrite bind_run by reflexivity. apply draw_petal_run. }
    rewrite IH by reflexivity.
    unfold petal_calls. cbn. flatten_apps. reflexivity.
Qed.

(** The complete effect of [draw] on parameters that pass validation. *)
Lemma draw_run (n size : Z) (c : RGBColor) (lw : Z) (centre : Point)
      (t : Turtle) :
  3 <= n <= 15 -> 1 <= lw <= 5 ->
  draw n size c lw centre t =
  (mkTurtle (pos t) (hdg t) (down t) lw c false
     (canvas t ++
      concat (map (fun h => petal_strokes (vec_of_point centre) h size lw c)
                  (petal_headings n)))
     (journal t ++
      prepare_pen (vec_of_point centre) lw c ++
      concat (map (petal_calls (vec_of_point centre) size) (petal_headings n)) ++
      HideTurtle :: restore_pose (pos t) (hdg t) (down t)),
   inr tt).
Proof.
  intros Hn Hlw. unfold draw.
  replace ((3 <=? n) && (n <=? 15)) with true
    by (symmetry; apply andb_true_intro; split; apply Z.leb_le; lia).
  replace ((1 <=? lw) && (lw <=? 5)) with true
    by (symmetry; apply andb_true_intro; split; apply Z.leb_le; lia).
  cbn [negb].
  do 8 run_step.
  erewrite bind_run by (apply petals_run; reflexivity).
  unfold petal_headings. rewrite !map_map.
  destruct t as [p h d w0 c0 v cv j].
  unfold prepare_pen, restore_pose.
  destruct d; turtle_eval; flatten_apps; reflexivity.
Qed.

End RosetteFacts.

(** ** Properties of [task1/draw_figure.py] *)

Section DrawFigureProperties.
Import turtle DrawFigure.
Context `{Geometry}.

(** C7: for every size > 0 and every starting pose, [_draw_petal] returns
  and leaves the position, the heading and the pen-down state of the
  surface as they were before the call. *)
Theorem draw_petal_pose_neutral (size : Z) (t : Turtle) :
0 < size ->
outcome_of (_draw_petal size t) = inr tt /\
pos (state_of (_draw_petal size t)) = pos t /\
hdg (state_of (_draw_petal size t)) = hdg t /\
down (state_of (_draw_petal size t)) = down t.
Proof.
intros _. rewrite draw_petal_run. cbn. repeat split.
Qed.

(** C6: for every size > 0, [_draw_petal] issues, from the current pose,
  exactly: a pen-up advance of [size]; pen down; left 60; an arc of
  radius [size] and sweep 120; left 120; a second arc of radius [size]
  and sweep 120 -- followed only by the calls that put the pose back.
  On the canvas this leaves exactly those two arcs. *)
Theorem draw_petal_sequence (size : Z) (t : Turtle) :
0 < size ->
let r := inject_Z size in
let p1 := ahead (pos t) (hdg t) r in
let p2 := arc_end p1 (hdg t + 60)%Q r 120 in
outcome_of (_draw_petal size t) = inr tt /\
journal (state_of (_draw_petal size t)) =
  journal t ++
  [ PenUp; Forward r; PenDown; Left 60; Circle r 120; Left 120; Circle r 120 ] ++
  restore_pose (pos t) (hdg t) (down t) /\
canvas (state_of (_draw_petal size t)) =
  canvas t ++
  [ Arc p1 (hdg t + 60)%Q r 120 (width t) (color t);
    Arc p2 (hdg t + 60 + 120 + 120)%Q r 120 (width t) (color t) ].
Proof.
intros _. rewrite draw_petal_run. cbn. repeat split.
Qed.

(** C1: for every valid configuration (petal count in 3..15, line width in
  1..5, size > 0), [draw] returns and the surface's position, heading and
  pen-down state equal their values immediately before the call. *)
Theorem draw_pose_neutral (n size : Z) (c : RGBColor) (lw : Z)
      (centre : Point) (t : Turtle) :
valid_config n lw size ->
outcome_of (draw n size c lw centre t) = inr tt /\
pos (state_of (draw n size c lw centre t)) = pos t /\
hdg (state_of (draw n size c lw centre t)) = hdg t /\
down (state_of (draw n size c lw centre t)) = down t.
Proof.
intros (Hn & Hlw & _). rewrite draw_run by assumption. cbn. repeat split.
Qed.

(** C2: when the petal count is outside 3..15 or the line width is outside
  1..5, [draw] raises [ValueError] and the surface is exactly as it was at
  entry: no call reached it and no stroke was added. *)
Theorem draw_rejects_invalid (n size : Z) (c : RGBColor) (lw : Z)
      (centre : Point) (t : Turtle) :
n < 3 \/ 15 < n \/ lw < 1 \/ 5 < lw ->
exists msg : String.string,
  draw n size c lw centre t = (t, inl (ValueError msg)) /\
  canvas (state_of (draw n size c lw centre t)) = canvas t /\
  journal (state_of (draw n size c lw centre t)) = journal t.
Proof.
intros Hbad. unfold draw.
destruct ((3 <=? n) && (n <=? 15)) eqn:En; cbn [negb].
- destruct ((1 <=? lw) && (lw <=? 5)) eqn:Elw; cbn [negb].
  + apply andb_prop in En, Elw. destruct En as [E1 E2], Elw as [E3 E4].
    apply Z.leb_le in E1, E2, E3, E4. lia.
  + eexists. repeat split.
- eexists. repeat split.
Qed.

(** C8: for every valid configuration, after [draw] returns the pen colour
  is the configured colour and the line width the configured width,
  whatever they were before: the pen style is not restored. *)
Theorem draw_pen_style_persists (n size : Z) (c : RGBColor) (lw : Z)
      (centre : Point) (t : Turtle) :
valid_config n lw size ->
outcome_of (draw n size c lw centre t) = inr tt /\
color (state_of (draw n size c lw centre t)) = c /\
width (state_of (draw n size c lw centre t)) = lw.
Proof.
intros (Hn & Hlw & _). rewrite draw_run by assumption. cbn. repeat split.
Qed.

(** C10: for every valid configuration, [draw] hides the turtle, and does so
  before the calls that restore the pose; on return the turtle is hidden
  even if it was visible on entry, while position, heading and pen-down
  state are back to their entry values. *)
Theorem draw_hides_turtle (n size : Z) (c : RGBColor) (lw : Z)
      (centre : Point) (t : Turtle) :
valid_config n lw size ->
shown (state_of (draw n size c lw centre t)) = false /\
pose (state_of (draw n size c lw centre t)) = pose t /\
exists drawing : list Call,
  journal (state_of (draw n size c lw centre t)) =
    journal t ++ drawing ++ [HideTurtle] ++ restore_pose (pos t) (hdg t) (down t) /\
  ~ In HideTurtle drawing.
Proof.
intros (Hn & Hlw & _). rewrite draw_run by assumption. cbn.
repeat split.
exists (prepare_pen (vec_of_point centre) lw c ++
        concat (map (petal_calls (vec_of_point centre) size) (petal_headings n))).
split.
- now rewrite <- app_assoc.
- intros Hin. apply in_app_or in Hin. destruct Hin as [Hin | Hin].
  + cbn in Hin. intuition discriminate.
  + apply in_concat in Hin. destruct Hin as (calls & Hcalls & Hin).
    apply in_map_iff in Hcalls. destruct Hcalls as (h & <- & _).
    cbn in Hin. intuition discriminate.
Qed.

(** C5: for every valid configuration with [n] petals, [draw] draws exactly
  [n] petals, the one of index [i] from the centre at heading
  [(360 / n) * i], for [i = 0 .. n-1]; each heading is assigned with
  [setheading], not reached by a relative turn.  For [n = 3] the headings
  are 0, 120 and 240 degrees. *)
Theorem draw_places_petals (n size : Z) (c : RGBColor) (lw : Z)
      (centre : Point) (t : Turtle) :
valid_config n lw size ->
let slots := map (fun index => (360 / inject_Z n * inject_Z index)%Q) (range n) in
let middle := vec_of_point centre in
length slots = Z.to_nat n /\
journal (state_of (draw n size c lw centre t)) =
  journal t ++ prepare_pen middle lw c ++
  concat (map (fun h => SetHeading h :: petal_outline size ++ restore_pose middle h true)
              slots) ++
  HideTurtle :: restore_pose (pos t) (hdg t) (down t) /\
canvas (state_of (draw n size c lw centre t)) =
  canvas t ++ concat (map (fun h => petal_strokes middle h size lw c) slots) /\
Forall2 Qeq
  (map (fun index => (360 / inject_Z 3 * inject_Z index)%Q) (range 3))
  [0%Q; 120%Q; 240%Q].
Proof.
intros (Hn & Hlw & _). cbv zeta. rewrite draw_run by assumption. cbn.
repeat split.
- now rewrite length_map, range_length.
- repeat constructor.
Qed.

End DrawFigureProperties.

(** ** The colour-mode switch *)

Lemma ensure_colormode_255_settled (n : nat) (cm : Z) :
  times n GenProgram.ensure_colormode_255 (mkColorState true cm) =
  (mkColorState true cm, inr tt).
Proof.
  induction n as [|k IH]; [reflexivity|].
  cbn [times]. now run_step.
Qed.

(** C9: [ensure_colormode_255] is idempotent.  The first call in a freshly
    loaded module sets the library's colour mode to 255 and raises the
    flag; a call made after any earlier call changes nothing; and one call
    leaves the same state as any larger number of calls.  Both scripts
    carry the same function. *)
Theorem ensure_colormode_255_idempotent (s : ColorState) (cm : Z) (n : nat) :
  GenProgram.ensure_colormode_255 (module_loaded cm) =
    (mkColorState true 255, inr tt) /\
  (let s1 := state_of (GenProgram.ensure_colormode_255 s) in
   GenProgram.ensure_colormode_255 s1 = (s1, inr tt)) /\
  times (S n) GenProgram.ensure_colormode_255 s =
    GenProgram.ensure_colormode_255 s /\
  Program.ensure_colormode_255 = GenProgram.ensure_colormode_255.
Proof.
  repeat split.
  - destruct s as [[|] m]; reflexivity.
  - cbn [times]. destruct s as [[|] m].
    + run_step. apply ensure_colormode_255_settled.
    + run_step. apply (ensure_colormode_255_settled n COLOR_MODE).
Qed.

(** ** The sampler *)

Section SamplerProperties.
Import GenProgram.
Context `{RandomSource}.

Lemma randint_run (a b : Z) (g : Rng) :
  a <= b ->
  randint a b g = (snd (next_int a b g), inr (fst (next_int a b g))).
Proof.
  intros Hab. unfold randint.
  replace (a <=? b) with true by (symmetry; now apply Z.leb_le).
  now destruct (next_int a b g).
Qed.

Lemma randint_in_range (a b : Z) (g : Rng) :
  randint_contract _ -> a <= b ->
  exists (v : Z) (g' : Rng), randint a b g = (g', inr v) /\ a <= v <= b.
Proof.
  intros Hc Hab. exists (fst (next_int a b g)), (snd (next_int a b g)).
  split; [now apply randint_run | now apply Hc].
Qed.

(** The placement draw on one axis: within the clamp, and pinned to the
    origin when the size reaches the half-extent. *)
Lemma clamped_draw (limit size : Z) (g : Rng) :
  randint_contract _ ->
  let m := Z.max (limit - size) 0 in
  exists (v : Z) (g' : Rng),
    randint (- m) m g = (g', inr v) /\
    Z.abs v <= m /\ (limit <= size -> v = 0).
Proof.
  intros Hc m.
  destruct (randint_in_range (- m) m g Hc) as (v & g' & E & Hv); [subst m; lia|].
  exists v, g'. repeat split; [exact E | lia | subst m; lia].
Qed.

(** The sampler never raises, whatever the generator does. *)
Lemma generate_parameters_returns (g : Rng) :
  exists (ps : Parameters) (g' : Rng), generate_parameters g = (g', inr ps).
Proof.
  unfold generate_parameters.
  do 6 (erewrite bind_run by (apply randint_run; cbn; lia)).
  do 2 (erewrite bind_run by (apply randint_run; lia)).
  eexists. eexists. reflexivity.
Qed.

End SamplerProperties.

(** What the sampler returns under the contract of [randint]. *)
Lemma sampler_in_domain (R : RandomSource) (g : Rng) :
  randint_contract R ->
  exists (ps : GenProgram.Parameters) (g' : Rng),
    GenProgram.generate_parameters g = (g', inr ps) /\ in_domain ps.
Proof.
  intros Hc. unfold GenProgram.generate_parameters.
  destruct (randint_in_range 3 15 g Hc) as (n & g1 & E1 & Hn); [lia|].
  rewrite (bind_run _ _ _ _ _ E1).
  destruct (randint_in_range 80 180 g1 Hc) as (sz & g2 & E2 & Hsz); [lia|].
  rewrite (bind_run _ _ _ _ _ E2).
  destruct (randint_in_range 0 255 g2 Hc) as (red & g3 & E3 & Hred); [lia|].
  rewrite (bind_run _ _ _ _ _ E3).
  destruct (randint_in_range 0 255 g3 Hc) as (green & g4 & E4 & Hgreen); [lia|].
  rewrite (bind_run _ _ _ _ _ E4).
  destruct (randint_in_range 0 255 g4 Hc) as (blue & g5 & E5 & Hblue); [lia|].
  rewrite (bind_run _ _ _ _ _ E5).
  destruct (randint_in_range 1 5 g5 Hc) as (lw & g6 & E6 & Hlw); [lia|].
  rewrite (bind_run _ _ _ _ _ E6).
  destruct (clamped_draw GenProgram.POSITION_LIMIT_X sz g6 Hc)
    as (x & g7 & E7 & Hx & _).
  rewrite (bind_run _ _ _ _ _ E7).
  destruct (clamped_draw GenProgram.POSITION_LIMIT_Y sz g7 Hc)
    as (y & g8 & E8 & Hy & _).
  rewrite (bind_run _ _ _ _ _ E8).
  eexists. eexists. split; [reflexivity|].
  unfold in_domain.
  cbn [GenProgram.base_elements GenProgram.size GenProgram.color
       GenProgram.line_width GenProgram.position fst snd].
  repeat split; lia.
Qed.

(** C3: for every random source that honours the contract of [randint],
    the sampler returns parameters with petal count in 3..15, size in
    80..180, every colour channel in 0..255, line width in 1..5, and a
    centre with [|x| <= max(450 - size, 0)] and [|y| <= max(300 - size, 0)],
    hence within [450 - size] and [300 - size] for the sizes it samples; a
    coordinate is 0 on an axis whose half-extent does not exceed the
    size. *)
Theorem generate_parameters_in_range (R : RandomSource) (g : Rng) :
  randint_contract R ->
  exists (ps : GenProgram.Parameters) (g' : Rng),
    GenProgram.generate_parameters g = (g', inr ps) /\
    3 <= GenProgram.base_elements ps <= 15 /\
    80 <= GenProgram.size ps <= 180 /\
    (0 <= fst (fst (GenProgram.color ps)) <= 255 /\
     0 <= snd (fst (GenProgram.color ps)) <= 255 /\
     0 <= snd (GenProgram.color ps) <= 255) /\
    1 <= GenProgram.line_width ps <= 5 /\
    (Z.abs (fst (GenProgram.position ps)) <= Z.max (450 - GenProgram.size ps) 0 /\
     Z.abs (snd (GenProgram.position ps)) <= Z.max (300 - GenProgram.size ps) 0) /\
    (Z.abs (fst (GenProgram.position ps)) <= 450 - GenProgram.size ps /\
     Z.abs (snd (GenProgram.position ps)) <= 300 - GenProgram.size ps) /\
    (450 <= GenProgram.size ps -> fst (GenProgram.position ps) = 0) /\
    (300 <= GenProgram.size ps -> snd (GenProgram.position ps) = 0).
Proof.
  intros Hc.
  destruct (sampler_in_domain R g Hc) as (ps & g' & E & Hd).
  exists ps, g'. split; [exact E|].
  unfold in_domain, GenProgram.POSITION_LIMIT_X, GenProgram.POSITION_LIMIT_Y in Hd.
  repeat split; lia.
Qed.

(** ** The batch run *)

(** Whether [draw] returns or raises, and with what, is decided by its
    arguments alone. *)
Lemma draw_outcome_frame `{Geometry} (n size : Z) (c : RGBColor) (lw : Z)
      (centre : Point) (t1 t2 : turtle.Turtle) :
  outcome_of (DrawFigure.draw n size c lw centre t1) =
  outcome_of (DrawFigure.draw n size c lw centre t2).
Proof.
  destruct ((3 <=? n) && (n <=? 15)) eqn:En.
  - destruct ((1 <=? lw) && (lw <=? 5)) eqn:Elw.
    + apply andb_prop in En, Elw. destruct En as [E1 E2], Elw as [E3 E4].
      apply Z.leb_le in E1, E2, E3, E4.
      now rewrite !draw_run by lia.
    + unfold DrawFigure.draw. now rewrite En, Elw.
  - unfold DrawFigure.draw. now rewrite En.
Qed.

Section BatchProperties.
Import turtle GenProgram.
Context `{Geometry} `{RandomSource}.

Lemma coherent_ret {A : Type} (a : A) : coherent (ret a).
Proof. intros p1 p2 Hp. now split. Qed.

Lemma coherent_bind {A B : Type} (m : Prog Process A) (k : A -> Prog Process B) :
  coherent m -> (forall a, coherent (k a)) -> coherent (bind m k).
Proof.
  intros Hm Hk p1 p2 Hp. destruct (Hm p1 p2 Hp) as [Hs Ho].
  unfold bind.
  destruct (m p1) as [s1 [e1|a1]], (m p2) as [s2 [e2|a2]];
    cbn in Hs, Ho; try discriminate.
  - injection Ho as ->. split; [exact Hs | reflexivity].
  - injection Ho as ->. now apply Hk.
Qed.

Lemma coherent_for_each {A : Type} (l : list A) (body : A -> Prog Process unit) :
  (forall a, coherent (body a)) -> coherent (for_each l body).
Proof.
  intros Hbody. induction l as [|a rest IH]; cbn [for_each].
  - apply coherent_ret.
  - apply coherent_bind; [apply Hbody | intros _; exact IH].
Qed.

Lemma coherent_modify (f : Process -> Process) :
  (forall p1 p2, agree p1 p2 -> agree (f p1) (f p2)) -> coherent (modify f).
Proof. intros Hf p1 p2 Hp. split; [now apply Hf | reflexivity]. Qed.

(** A program on the turtle whose outcome does not depend on the turtle. *)
Lemma coherent_on_artist {A : Type} (m : Prog Turtle A) :
  (forall t1 t2, outcome_of (m t1) = outcome_of (m t2)) ->
  coherent (on_artist m).
Proof.
  intros Hm p1 p2 (Hg & Ho & Hl). unfold on_artist, focus.
  specialize (Hm (artist p1) (artist p2)).
  destruct (m (artist p1)) as [t1 r1], (m (artist p2)) as [t2 r2].
  cbn in *. repeat split; assumption.
Qed.

(** Any program on the script's generator. *)
Lemma coherent_on_rng {A : Type} (m : Prog Rng A) :
  coherent (focus rng put_rng m).
Proof.
  intros p1 p2 (Hg & Ho & Hl). unfold focus. rewrite Hg.
  destruct (m (rng p2)) as [g r]. cbn. repeat split; assumption.
Qed.

Lemma coherent_iteration (index : Z) : coherent (iteration index).
Proof.
  unfold iteration.
  repeat (apply coherent_bind; [|intros ?]).
  - now apply coherent_on_artist.
  - now apply coherent_on_artist.
  - now apply coherent_on_artist.
  - now apply coherent_on_artist.
  - apply coherent_on_rng.
  - apply coherent_modify. intros p1 p2 (Hg & Ho & Hl). now repeat split.
  - apply coherent_modify. intros p1 p2 (Hg & Ho & Hl). repeat split; cbn; congruence.
  - apply coherent_on_artist. apply draw_outcome_frame.
  - apply coherent_modify. intros p1 p2 (Hg & Ho & Hl). now repeat split.
Qed.

Lemma coherent_after_setup (indices : list Z) :
  coherent (after_setup indices).
Proof.
  unfold after_setup.
  repeat (apply coherent_bind; [|intros ?]).
  - apply coherent_for_each, coherent_iteration.
  - intros p1 p2 Hp. split; [exact Hp | cbn; f_equal; apply Hp].
  - destruct a0.
    + apply coherent_modify. intros p1 p2 (Hg & Ho & Hl). now repeat split.
    + apply coherent_ret.
  - now apply coherent_on_artist.
Qed.

(** A seeded run is its set-up followed by the batch, and the set-up
    leaves a process with the seeded generator, nothing more printed and no
    parameters remembered. *)
Lemma run_seeded (count seed : Z) (p : Process) :
  exists s : Process,
    rng s = seed_state seed /\ stdout s = stdout p /\
    last_parameters s = None /\
    run count (Some seed) p = after_setup (range_from 1 (count + 1)) s.
Proof.
  destruct p as [g mg [f cm] t l o e]. unfold run.
  destruct f; eexists;
    (split; [|split; [|split]]); [| | |do 6 run_step; reflexivity| | | |do 6 run_step; reflexivity];
    reflexivity.
Qed.

End BatchProperties.

(** C4: for every seed and count, two batch runs with that seed print the
    same sequence of sampled parameters (and end the same way), whatever
    else differs between the two processes: the entropy-seeded state of the
    generators before seeding, the colour-mode state, the turtle, the files
    already exported. *)
Theorem batch_deterministic (G : Geometry) (R : RandomSource)
        (seed count : Z) (p1 p2 : GenProgram.Process) :
  GenProgram.stdout p1 = [] -> GenProgram.stdout p2 = [] ->
  GenProgram.stdout (state_of (GenProgram.run count (Some seed) p1)) =
  GenProgram.stdout (state_of (GenProgram.run count (Some seed) p2)) /\
  outcome_of (GenProgram.run count (Some seed) p1) =
  outcome_of (GenProgram.run count (Some seed) p2).
Proof.
  intros H1 H2.
  destruct (run_seeded count seed p1) as (s1 & Hg1 & Ho1 & Hl1 & ->).
  destruct (run_seeded count seed p2) as (s2 & Hg2 & Ho2 & Hl2 & ->).
  destruct (coherent_after_setup (range_from 1 (count + 1)) s1 s2)
    as [(_ & Ho & _) Hr].
  - repeat split; congruence.
  - split; assumption.
Qed.

(** ** Running the model *)



Lemma lcg_contract : randint_contract Lcg.source.
Proof.
  intros a b g Hab. cbn.
  pose proof (Z.mod_pos_bound (Lcg.advance g) (b - a + 1)). lia.
Qed.

(** ** The batch run never stops early *)

Section BatchCompletes.
Import turtle GenProgram.
Context `{Geometry} `{RandomSource}.
Hypothesis contract : randint_contract _.

(** One iteration returns, having printed exactly one line, whose
    parameters lie in the sampler's domain. *)
Lemma iteration_returns (index : Z) (p : Process) :
  exists (s : Process) (ps : Parameters),
    iteration index p = (s, inr tt) /\
    stdout s = stdout p ++ [(index, ps)] /\ in_domain ps /\
    last_parameters s = Some ps.
Proof.
  unfold iteration. do 4 run_step.
  match goal with
  | |- context [bind (focus rng put_rng generate_parameters) _ ?q] =>
      destruct (sampler_in_domain _ (rng q) contract) as (ps & g' & E & Hd);
      erewrite (bind_run _ _ q (put_rng g' q) ps)
        by (unfold focus; now rewrite E)
  end.
  do 2 run_step.
  erewrite bind_run.
  2:{ unfold on_artist, focus.
      rewrite draw_run by (unfold in_domain in Hd; lia). reflexivity. }
  eexists. exists ps.
  split; [reflexivity|]. split; [reflexivity|]. split; [exact Hd | reflexivity].
Qed.

Lemma iterations_return (indices : list Z) (p : Process) :
  exists s : Process,
    for_each indices iteration p = (s, inr tt) /\
    map fst (stdout s) = map fst (stdout p) ++ indices /\
    (indices <> [] -> last_parameters s <> None).
Proof.
  revert p. induction indices as [|index rest IH]; intros p.
  - exists p. cbn. rewrite app_nil_r. repeat split. congruence.
  - destruct (iteration_returns index p) as (s1 & ps & E1 & Hout & _ & Hlast).
    destruct (IH s1) as (s2 & E2 & Hout2 & Hlast2).
    exists s2. cbn [for_each]. rewrite (bind_run _ _ _ _ _ E1).
    split; [exact E2|]. split.
    + rewrite Hout2, Hout, map_app, <- app_assoc. reflexivity.
    + intros _. destruct rest as [|i rest'].
      * cbn in E2. injection E2 as <-. congruence.
      * apply Hlast2. discriminate.
Qed.

(** A seeded run returns normally and prints one line per image, numbered
    from 1 to the count. *)
Lemma run_prints_every_sample (count seed : Z) (p : Process) :
  outcome_of (run count (Some seed) p) = inr tt /\
  map fst (stdout (state_of (run count (Some seed) p))) =
    map fst (stdout p) ++ range_from 1 (count + 1).
Proof.
  destruct (run_seeded count seed p) as (s & _ & Hout & _ & ->).
  unfold after_setup.
  destruct (iterations_return (range_from 1 (count + 1)) s) as (s1 & E & Hs1 & _).
  rewrite (bind_run _ _ _ _ _ E). run_step.
  destruct (last_parameters s1); run_step; cbn; now rewrite Hs1, Hout.
Qed.

End BatchCompletes.

(** ** Concrete runs *)

Section Runs.
Import turtle Samples.
Local Existing Instance Bhaskara.geometry.
Local Existing Instance Lcg.source.

Lemma draw_petal_pose_neutral_witness :
  0 < 100 /\
  (outcome_of (DrawFigure._draw_petal 100 wandering) = inr tt /\
   pos (state_of (DrawFigure._draw_petal 100 wandering)) = pos wandering /\
   hdg (state_of (DrawFigure._draw_petal 100 wandering)) = hdg wandering /\
   down (state_of (DrawFigure._draw_petal 100 wandering)) = down wandering).
Proof.
  split; [lia|].
  apply (draw_petal_pose_neutral 100 wandering). lia.
Defined.

Lemma draw_petal_sequence_witness :
  0 < 100 /\
  journal (state_of (DrawFigure._draw_petal 100 fresh)) =
    [ PenUp; Forward 100; PenDown; Left 60; Circle 100 120; Left 120;
      Circle 100 120; PenUp; Goto (0, 0)%Q; SetHeading 0; PenDown ].
Proof.
  split; [lia|].
  apply (draw_petal_sequence 100 fresh). lia.
Defined.

Lemma draw_pose_neutral_witness :
  valid_config 7 2 140 /\
  (outcome_of (DrawFigure.draw 7 140 (0, 120, 255) 2 (-260, 60) wandering) = inr tt /\
   pos (state_of (DrawFigure.draw 7 140 (0, 120, 255) 2 (-260, 60) wandering)) = (5, -3)%Q /\
   hdg (state_of (DrawFigure.draw 7 140 (0, 120, 255) 2 (-260, 60) wandering)) = 45%Q /\
   down (state_of (DrawFigure.draw 7 140 (0, 120, 255) 2 (-260, 60) wandering)) = false).
Proof.
  assert (Hv : valid_config 7 2 140) by (unfold valid_config; lia).
  split; [exact Hv|].
  exact (draw_pose_neutral 7 140 (0, 120, 255) 2 (-260, 60) wandering Hv).
Defined.

Lemma draw_rejects_invalid_witness :
  (16 < 3 \/ 15 < 16 \/ 2 < 1 \/ 5 < 2) /\
  exists msg : String.string,
    DrawFigure.draw 16 140 (0, 120, 255) 2 (-260, 60) wandering =
      (wandering, inl (ValueError msg)) /\
    canvas (state_of (DrawFigure.draw 16 140 (0, 120, 255) 2 (-260, 60) wandering)) = [] /\
    journal (state_of (DrawFigure.draw 16 140 (0, 120, 255) 2 (-260, 60) wandering)) = [].
Proof.
  assert (Hbad : 16 < 3 \/ 15 < 16 \/ 2 < 1 \/ 5 < 2) by lia.
  split; [exact Hbad|].
  exact (draw_rejects_invalid 16 140 (0, 120, 255) 2 (-260, 60) wandering Hbad).
Defined.

Lemma draw_pen_style_persists_witness :
  valid_config 10 3 110 /\
  (outcome_of (DrawFigure.draw 10 110 (255, 105, 0) 3 (0, -20) wandering) = inr tt /\
   color (state_of (DrawFigure.draw 10 110 (255, 105, 0) 3 (0, -20) wandering)) = (255, 105, 0) /\
   width (state_of (DrawFigure.draw 10 110 (255, 105, 0) 3 (0, -20) wandering)) = 3).
Proof.
  assert (Hv : valid_config 10 3 110) by (unfold valid_config; lia).
  split; [exact Hv|].
  exact (draw_pen_style_persists 10 110 (255, 105, 0) 3 (0, -20) wandering Hv).
Defined.

Lemma draw_hides_turtle_witness :
  valid_config 3 4 160 /\ shown wandering = true /\
  shown (state_of (DrawFigure.draw 3 160 (60, 200, 120) 4 (260, 80) wandering)) = false /\
  pose (state_of (DrawFigure.draw 3 160 (60, 200, 120) 4 (260, 80) wandering)) = pose wandering.
Proof.
  assert (Hv : valid_config 3 4 160) by (unfold valid_config; lia).
  split; [exact Hv|]. split; [reflexivity|].
  destruct (draw_hides_turtle 3 160 (60, 200, 120) 4 (260, 80) wandering Hv)
    as (Hshown & Hpose & _).
  split; [exact Hshown | exact Hpose].
Defined.

Lemma draw_places_petals_witness :
  valid_config 3 4 160 /\
  canvas (state_of (DrawFigure.draw 3 160 (60, 200, 120) 4 (260, 80) fresh)) =
    concat (map (fun h => petal_strokes (260, 80)%Q h 160 4 (60, 200, 120))
                [(0 # 3)%Q; (360 # 3)%Q; (720 # 3)%Q]).
Proof.
  assert (Hv : valid_config 3 4 160) by (unfold valid_config; lia).
  split; [exact Hv|].
  destruct (draw_places_petals 3 160 (60, 200, 120) 4 (260, 80) fresh Hv)
    as (_ & _ & Hcanvas & _).
  exact Hcanvas.
Defined.

Lemma generate_parameters_in_range_witness :
  randint_contract Lcg.source /\
  exists (ps : GenProgram.Parameters) (g' : Z),
    GenProgram.generate_parameters 42 = (g', inr ps) /\
    3 <= GenProgram.base_elements ps <= 15.
Proof.
  split; [exact lcg_contract|].
  destruct (generate_parameters_in_range Lcg.source 42 lcg_contract)
    as (ps & g' & E & Hn & _).
  exists ps, g'. split; [exact E | exact Hn].
Defined.

Lemma batch_deterministic_witness :
  GenProgram.stdout process_a = [] /\ GenProgram.stdout process_b = [] /\
  GenProgram.stdout (state_of (GenProgram.run 5 (Some 42) process_a)) =
  GenProgram.stdout (state_of (GenProgram.run 5 (Some 42) process_b)).
Proof.
  split; [reflexivity|]. split; [reflexivity|].
  apply (batch_deterministic Bhaskara.geometry Lcg.source 42 5 process_a process_b);
    reflexivity.
Defined.

End Runs.

(** ** The scenarios of the fixed list and of a seeded batch *)

Section Scenarios.
Import turtle Samples.
Local Existing Instance Bhaskara.geometry.
Local Existing Instance Lcg.source.

(** Every composition of [task1/program.py] passes validation. *)
Example compositions_are_valid :
  Forall (fun cfg : Program.CompositionConfig =>
            let '(n, size, _, lw, _) := cfg in valid_config n lw size)
         Program.COMPOSITIONS.
Proof. repeat constructor; unfold valid_config; lia. Qed.

(** Three petals: six arcs, and the slots assigned are 0, 120 and 240. *)
Example three_petals :
  let t := state_of (DrawFigure.draw 3 160 (60, 200, 120) 4 (260, 80) fresh) in
  length (canvas t) = 6%nat /\
  map Qred (petal_headings 3) = [0%Q; 120%Q; 240%Q] /\
  pose t = pose fresh /\ shown t = false.
Proof. vm_compute. repeat split. Qed.

(** Sixteen petals are refused, with the message of the first check. *)
Example sixteen_petals_refused :
  DrawFigure.draw 16 120 (0, 120, 255) 2 (0, 0) wandering =
  (wandering,
   inl (ValueError "Parameter 'base_elements' must be in range 3..15."%string)).
Proof. reflexivity. Qed.

(** A line width of 6 is refused, with the message of the second check. *)
Example wide_line_refused :
  DrawFigure.draw 7 120 (0, 120, 255) 6 (0, 0) wandering =
  (wandering,
   inl (ValueError "Parameter 'line_width' must be in range 1..5."%string)).
Proof. reflexivity. Qed.

(** The first sample of the generator seeded with 42. *)
Example first_sample :
  outcome_of (GenProgram.generate_parameters 42) =
  inr (GenProgram.mkParameters 4 147 (145, 246, 247) 3 (-232, -122)).
Proof. reflexivity. Qed.

(** A batch of five with seed 42 prints five lines, numbered 1 to 5, and
    exports five images and the screenshot. *)
Example batch_of_five :
  let p := state_of (GenProgram.run 5 (Some 42) process_a) in
  map fst (GenProgram.stdout p) = [1; 2; 3; 4; 5] /\
  map fst (GenProgram.exported p) =
    [ GenProgram.ImageFile 1; GenProgram.ImageFile 2; GenProgram.ImageFile 3;
      GenProgram.ImageFile 4; GenProgram.ImageFile 5; GenProgram.ScreenshotFile ].
Proof. vm_compute. split; reflexivity. Qed.

(** Without a seed the printed sequence follows the generator's initial
    state, which the two sample processes do not share. *)
Example unseeded_runs_differ :
  GenProgram.stdout (state_of (GenProgram.run 1 None process_a)) <>
  GenProgram.stdout (state_of (GenProgram.run 1 None process_b)).
Proof. vm_compute. discriminate. Qed.

End Scenarios.

(** * Further properties *)

(** ** More on [task1/draw_figure.py] *)

Section DrawFigureFurther.
Import turtle DrawFigure.
Context `{Geometry}.

(** What [draw] does with arguments it refuses. *)
Lemma draw_refusal (n size : Z) (c : RGBColor) (lw : Z)
      (centre : Point) (t : Turtle) :
  n < 3 \/ 15 < n \/ lw < 1 \/ 5 < lw ->
  draw n size c lw centre t = (t, inl (ValueError (rejection n))).
Proof.
  intros Hbad. unfold draw, rejection.
  destruct ((3 <=? n) && (n <=? 15)) eqn:En; cbn [negb]; [|reflexivity].
  destruct ((1 <=? lw) && (lw <=? 5)) eqn:Elw; cbn [negb]; [|reflexivity].
  apply andb_prop in En, Elw. destruct En as [E1 E2], Elw as [E3 E4].
  apply Z.leb_le in E1, E2, E3, E4. lia.
Qed.

(** X1: whenever [draw] refuses its arguments, the surface is untouched
    and the message names the first check that fails: a petal count outside
    3..15 is reported even when the line width is out of range too. *)
Theorem draw_reports_first_violation (n size : Z) (c : RGBColor) (lw : Z)
        (centre : Point) (t : Turtle) :
  n < 3 \/ 15 < n \/ lw < 1 \/ 5 < lw ->
  draw n size c lw centre t =
  (t, inl (ValueError
             (if (3 <=? n) && (n <=? 15)
              then "Parameter 'line_width' must be in range 1..5."%string
              else "Parameter 'base_elements' must be in range 3..15."%string))).
Proof.
  intros Hbad. now rewrite draw_refusal.
Qed.

Lemma petals_are_arcs (centre : Vec2D) (size lw : Z) (c : RGBColor)
      (slots : list Q) :
  let drawn := concat (map (fun h => petal_strokes centre h size lw c) slots) in
  length drawn = (2 * length slots)%nat /\
  Forall (is_petal_arc size lw c) drawn.
Proof.
  induction slots as [|h rest [IHlen IHall]]; cbn.
  - split; [reflexivity | constructor].
  - split.
    + cbn in IHlen. rewrite IHlen. lia.
    + repeat (constructor; [cbn; repeat split|]). exact IHall.
Qed.

(** X2: a rosette of [n] petals adds exactly [2 * n] strokes to the
    canvas, after the strokes already there; every one is an arc of radius
    [size] and sweep 120 in the configured width and colour.  No straight
    segment is ever drawn: all travel between arcs happens with the pen
    up. *)
Theorem draw_adds_only_petal_arcs (n size : Z) (c : RGBColor) (lw : Z)
        (centre : Point) (t : Turtle) :
  3 <= n <= 15 -> 1 <= lw <= 5 ->
  exists added : list Stroke,
    canvas (state_of (draw n size c lw centre t)) = canvas t ++ added /\
    length added = (2 * Z.to_nat n)%nat /\
    Forall (is_petal_arc size lw c) added.
Proof.
  intros Hn Hlw. exists (rosette_strokes n size c lw centre).
  rewrite draw_run by assumption. split; [reflexivity|].
  unfold rosette_strokes.
  destruct (petals_are_arcs (vec_of_point centre) size lw c (petal_headings n))
    as [Hlen Hall].
  split; [|exact Hall].
  rewrite Hlen. unfold petal_headings. now rewrite length_map, range_length.
Qed.

End DrawFigureFurther.



(** ** File names *)

Lemma of_uint_pad (k : nat) (d : Decimal.uint) :
  Z.of_uint (Fmt.pad k d) = Z.of_uint d.
Proof. induction k as [|k IH]; [reflexivity | exact IH]. Qed.



Lemma format_03d_parses (i : Z) : Fmt.parse_int (Fmt.format_03d i) = Some i.
Proof.
  unfold Fmt.parse_int, Fmt.format_03d.
  rewrite DecimalString.NilEmpty.isi. cbn [option_map]. f_equal.
  rewrite <- (DecimalZ.of_to i) at 2.
  destruct (Z.to_int i) as [d|d]; unfold Fmt.zero_fill; cbn [Z.of_int];
    now rewrite of_uint_pad.
Qed.

Lemma format_03d_injective (i j : Z) :
  Fmt.format_03d i = Fmt.format_03d j -> i = j.
Proof.
  intros E. apply (f_equal Fmt.parse_int) in E.
  rewrite !format_03d_parses in E. congruence.
Qed.


Lemma path_eqb_eq (p q : Path) : path_eqb p q = true <-> p = q.
Proof.
  destruct p as [a b c], q as [a' b' c']. unfold path_eqb. cbn.
  rewrite !andb_true_iff, !String.eqb_eq. split.
  - intros [[-> ->] ->]. reflexivity.
  - intros E. injection E as -> -> ->. repeat split.
Qed.

Lemma path_eqb_refl (p : Path) : path_eqb p p = true.
Proof. now apply path_eqb_eq. Qed.

Lemma path_eqb_neq (p q : Path) : p <> q -> path_eqb p q = false.
Proof.
  intros Hne. destruct (path_eqb p q) eqn:E; [|reflexivity].
  apply path_eqb_eq in E. contradiction.
Qed.

Lemma path_of_injective (a b : GenProgram.OutputPath) :
  GenFiles.path_of a = GenFiles.path_of b -> a = b.
Proof.
  destruct a as [i|], b as [j|]; cbn; intros E; try discriminate;
    [|reflexivity].
  injection E as E. f_equal. now apply format_03d_injective.
Qed.

(** X5: the batch never names one file twice: different images get
    different paths, none of them is the path of the screenshot, and none
    is the PostScript sibling of another. *)
Theorem output_paths_distinct (a b : GenProgram.OutputPath) :
  (GenFiles.path_of a = GenFiles.path_of b -> a = b) /\
  with_suffix (GenFiles.path_of a) ".eps"%string <> GenFiles.path_of b.
Proof.
  split; [apply path_of_injective|].
  destruct a, b; discriminate.
Qed.

(** ** The exporter *)

Section ExportFacts.
Import ExportPipeline.
Context `{Pillow}.

(** The complete effect of the exporter without Pillow. *)
Lemma save_without_pillow (drawing : list turtle.Stroke) (path : Path) (h : Host) :
  pillow_available h = false ->
  save_canvas_png drawing path h =
  (say_fallback (with_suffix path ".eps"%string)
     (write (with_suffix path ".eps"%string) (Postscript drawing)
        (mkdir (parent path) h)),
   inr tt).
Proof.
  intros Hno. unfold save_canvas_png. do 3 run_step.
  cbn [pillow_available write mkdir]. rewrite Hno. reflexivity.
Qed.

(** The complete effect of the exporter with Pillow. *)
Lemma save_with_pillow (drawing : list turtle.Stroke) (path : Path) (h : Host) :
  pillow_available h = true ->
  save_canvas_png drawing path h =
  (unlink (with_suffix path ".eps"%string)
     (write path (Png (rendered drawing))
        (write (with_suffix path ".eps"%string) (Postscript drawing)
           (mkdir (parent path) h))),
   inr tt).
Proof.
  intros Hyes. unfold save_canvas_png. do 3 run_step.
  cbn [pillow_available write mkdir]. rewrite Hyes. cbn [negb].
  do 2 run_step.
  unfold file_exists, write at 1 2. cbn [files].
  rewrite path_eqb_refl.
  destruct (path_eqb (with_suffix path ".eps"%string) path); reflexivity.
Qed.


(** X7: with Pillow, and a destination that is not itself a [.eps] file,
    the exporter leaves the rendered (cropped when non-empty) image at the
    destination and no PostScript sibling -- a [.eps] file that was there
    before the call is gone as well; nothing is printed and no other file
    changes. *)
Theorem save_leaves_png_and_no_eps
        (drawing : list turtle.Stroke) (path : Path) (h : Host) :
  pillow_available h = true ->
  suffix path <> ".eps"%string ->
  let eps_path := with_suffix path ".eps"%string in
  let h' := state_of (save_canvas_png drawing path h) in
  outcome_of (save_canvas_png drawing path h) = inr tt /\
  files h' path = Some (Png (rendered drawing)) /\
  files h' eps_path = None /\
  (forall q, q <> path -> q <> eps_path -> files h' q = files h q) /\
  notices h' = notices h.
Proof.
  intros Hyes Hsuffix. cbv zeta. rewrite save_with_pillow by assumption.
  cbn [state_of outcome_of fst snd unlink write mkdir files notices].
  assert (Hne : path <> with_suffix path ".eps"%string).
  { intros E. apply Hsuffix. now rewrite E at 1. }
  rewrite path_eqb_refl, (path_eqb_neq _ _ Hne), path_eqb_refl.
  repeat split.
  intros q Hq1 Hq2. now rewrite !path_eqb_neq.
Qed.

(** X8: with Pillow, a destination that already ends in [.eps] is its own
    PostScript sibling: the image is written over the PostScript and then
    deleted by the clean-up, so the call leaves no file at all. *)
Theorem save_to_eps_destination_leaves_nothing
        (drawing : list turtle.Stroke) (path : Path) (h : Host) :
  pillow_available h = true ->
  suffix path = ".eps"%string ->
  outcome_of (save_canvas_png drawing path h) = inr tt /\
  files (state_of (save_canvas_png drawing path h)) path = None.
Proof.
  intros Hyes Hsuffix. rewrite save_with_pillow by assumption.
  cbn [state_of outcome_of fst snd unlink files].
  assert (E : with_suffix path ".eps"%string = path).
  { destruct path as [a b c]. cbn in Hsuffix. subst c. reflexivity. }
  rewrite E, path_eqb_refl. split; reflexivity.
Qed.

End ExportFacts.

(** ** The fixed-list script *)

Section FixedListFacts.
Import turtle ExportPipeline ProgramScript.
Context `{Geometry} `{Pillow}.

(** The loop over the compositions, all of them accepted: the painter
    keeps its pose, the strokes pile up in list order, and the pen style is
    that of the last composition. *)
Lemma compositions_loop (cs : list Program.CompositionConfig) (s : Session) :
  Forall accepted cs ->
  exists t' : Turtle,
    for_each cs (fun composition =>
      let '(base_elements, size, color, line_width, position) := composition in
      on_painter (DrawFigure.draw base_elements size color line_width position)) s =
    (put_painter t' s, inr tt) /\
    pose t' = pose (painter s) /\
    canvas t' = canvas (painter s) ++ concat (map composition_strokes cs) /\
    (shown (painter s) = false -> shown t' = false) /\
    width t' = fold_left (fun _ cfg => snd (fst cfg)) cs (width (painter s)) /\
    color t' = fold_left (fun _ cfg => snd (fst (fst cfg))) cs (color (painter s)).
Proof.
  revert s. induction cs as [|cfg rest IH]; intros s Hall.
  - exists (painter s). destruct s as [cl t h]. cbn. rewrite app_nil_r.
    repeat split. auto.
  - inversion Hall as [|cfg' rest' Hcfg Hrest]; subst.
    destruct cfg as [[[[n size] c] lw] centre]. cbn in Hcfg. destruct Hcfg as [Hn Hlw].
    cbn [for_each].
    erewrite bind_run.
    2:{ unfold on_painter, focus. rewrite draw_run by assumption. reflexivity. }
    destruct (IH (put_painter
                    (state_of (DrawFigure.draw n size c lw centre (painter s))) s) Hrest)
      as (t' & E & Hpose & Hcanvas & Hshown & Hwidth & Hcolor).
    rewrite draw_run in E, Hpose, Hcanvas, Hshown, Hwidth, Hcolor by assumption.
    exists t'. destruct s as [cl t h].
    cbn in E, Hpose, Hcanvas, Hshown, Hwidth, Hcolor |- *.
    split; [exact E|]. split; [exact Hpose|]. split.
    + rewrite Hcanvas. unfold rosette_strokes. now rewrite <- app_assoc.
    + split; [intros _; now apply Hshown|]. split; assumption.
Qed.

(** The loop stops at the first composition that [draw] refuses. *)
Lemma compositions_loop_stops (good rest : list Program.CompositionConfig)
      (bad : Program.CompositionConfig) (s : Session) :
  Forall accepted good -> ~ accepted bad ->
  exists t' : Turtle,
    for_each (good ++ bad :: rest) (fun composition =>
      let '(base_elements, size, color, line_width, position) := composition in
      on_painter (DrawFigure.draw base_elements size color line_width position)) s =
    (put_painter t' s,
     inl (ValueError (rejection (fst (fst (fst (fst bad))))))) /\
    canvas t' = canvas (painter s) ++ concat (map composition_strokes good).
Proof.
  revert s. induction good as [|cfg good' IH]; intros s Hall Hbad.
  - exists (painter s). destruct bad as [[[[n size] c] lw] centre].
    cbn [app for_each]. erewrite bind_fail.
    2:{ unfold on_painter, focus.
        rewrite draw_refusal by (cbn in Hbad; lia).
        reflexivity. }
    destruct s as [cl t h]. cbn. now rewrite app_nil_r.
  - inversion Hall as [|cfg' rest' Hcfg Hgood]; subst.
    destruct cfg as [[[[n size] c] lw] centre]. cbn in Hcfg. destruct Hcfg as [Hn Hlw].
    cbn [app for_each].
    erewrite bind_run.
    2:{ unfold on_painter, focus. rewrite draw_run by assumption. reflexivity. }
    destruct (IH (put_painter
                    (state_of (DrawFigure.draw n size c lw centre (painter s))) s)
                 Hgood Hbad) as (t' & E & Hcanvas).
    rewrite draw_run in E, Hcanvas by assumption.
    exists t'. destruct s as [cl t h]. cbn in E, Hcanvas |- *.
    split; [exact E|].
    rewrite Hcanvas. unfold rosette_strokes. now rewrite <- app_assoc.
Qed.

End FixedListFacts.

Lemma program_ensure_returns (c : ColorState) :
  exists c' : ColorState, Program.ensure_colormode_255 c = (c', inr tt).
Proof. destruct c as [[|] cm]; eexists; reflexivity. Qed.

Section FixedListProperties.
Import turtle ExportPipeline ProgramScript.
Context `{Geometry} `{Pillow}.

(** The script up to the loop: a new, hidden painter; files untouched. *)
Lemma fixed_list_starts (cs : list Program.CompositionConfig) (s : Session) :
  exists c' : ColorState,
    run cs s =
    (for_each cs (fun composition =>
       let '(base_elements, size, color, line_width, position) := composition in
       on_painter (DrawFigure.draw base_elements size color line_width position)) ;;
     drawing <- gets (fun s => canvas (painter s)) ;;
     focus host put_host (save_canvas_png drawing PNG_OUTPUT_PATH) ;;
     on_painter hideturtle)
      (mkSession c' (set_shown false (note HideTurtle fresh)) (host s)).
Proof.
  destruct (program_ensure_returns (colors s)) as (c' & E).
  exists c'. unfold run.
  erewrite bind_run by (unfold focus; rewrite E; reflexivity).
  do 2 run_step. reflexivity.
Qed.

(** X9: when every composition of the list passes validation, the script
    returns normally; the painter, created at home, is back at home and
    hidden; the canvas shows all the compositions in list order, none
    erased; and the exporter is called exactly once, with that whole
    picture. *)
Theorem fixed_list_saves_every_composition
        (cs : list Program.CompositionConfig) (s : Session) :
  Forall accepted cs ->
  let picture := concat (map composition_strokes cs) in
  let s' := state_of (run cs s) in
  outcome_of (run cs s) = inr tt /\
  canvas (painter s') = picture /\
  pose (painter s') = pose fresh /\
  shown (painter s') = false /\
  host s' = state_of (save_canvas_png picture PNG_OUTPUT_PATH (host s)).
Proof.
  intros Hall. cbv zeta.
  destruct (fixed_list_starts cs s) as (c' & ->).
  set (s0 := mkSession c' (set_shown false (note HideTurtle fresh)) (host s)).
  destruct (compositions_loop cs s0 Hall)
    as (t' & E & Hpose & Hcanvas & Hshown & _).
  rewrite (bind_run _ _ _ _ _ E). run_step.
  cbn in Hcanvas. cbn [put_painter painter s0]. rewrite Hcanvas.
  destruct (pillow_available (host s)) eqn:Hp.
  - erewrite bind_run
      by (unfold focus; cbn [host]; rewrite save_with_pillow by assumption;
          reflexivity).
    rewrite save_with_pillow by assumption.
    cbn. repeat split; [exact Hcanvas | exact Hpose].
  - erewrite bind_run
      by (unfold focus; cbn [host]; rewrite save_without_pillow by assumption;
          reflexivity).
    rewrite save_without_pillow by assumption.
    cbn. repeat split; [exact Hcanvas | exact Hpose].
Qed.

(** X10: a composition that [draw] refuses aborts the script with the
    [ValueError] of [draw]: the compositions before it stay on the canvas,
    the ones after it are never drawn, and the exporter is never reached,
    so no file is written and nothing is printed. *)
Theorem fixed_list_aborts_before_saving
        (good rest : list Program.CompositionConfig)
        (bad : Program.CompositionConfig) (s : Session) :
  Forall accepted good -> ~ accepted bad ->
  let s' := state_of (run (good ++ bad :: rest) s) in
  outcome_of (run (good ++ bad :: rest) s) =
    inl (ValueError (rejection (fst (fst (fst (fst bad)))))) /\
  canvas (painter s') = concat (map composition_strokes good) /\
  host s' = host s.
Proof.
  intros Hall Hbad. cbv zeta.
  destruct (fixed_list_starts (good ++ bad :: rest) s) as (c' & ->).
  set (s0 := mkSession c' (set_shown false (note HideTurtle fresh)) (host s)).
  destruct (compositions_loop_stops good rest bad s0 Hall Hbad)
    as (t' & E & Hcanvas).
  rewrite (bind_fail _ _ _ _ _ E). cbn in Hcanvas |- *.
  repeat split. exact Hcanvas.
Qed.

(** X11: the script as shipped cannot fail in [draw]: its three
    compositions all pass validation, so [main] returns normally in every
    session, with the forty arcs of its twenty petals on the canvas and
    the pen left in the style of the last composition. *)
Theorem main_completes (s : Session) :
  let s' := state_of (main s) in
  outcome_of (main s) = inr tt /\
  length (canvas (painter s')) = 40%nat /\
  width (painter s') = 4 /\ color (painter s') = (60, 200, 120).
Proof.
  cbv zeta. unfold main.
  destruct (fixed_list_starts Program.COMPOSITIONS s) as (c' & ->).
  set (s0 := mkSession c' (set_shown false (note HideTurtle fresh)) (host s)).
  assert (Hall : Forall accepted Program.COMPOSITIONS)
    by (repeat constructor; cbn; lia).
  destruct (compositions_loop Program.COMPOSITIONS s0 Hall)
    as (t' & E & _ & Hcanvas & _ & Hwidth & Hcolor).
  rewrite (bind_run _ _ _ _ _ E). run_step.
  cbn in Hcanvas, Hwidth, Hcolor.
  destruct (pillow_available (host s)) eqn:Hp.
  - erewrite bind_run
      by (unfold focus; cbn [host put_painter s0];
          rewrite save_with_pillow by assumption; reflexivity).
    cbn. rewrite Hcanvas. repeat split; assumption.
  - erewrite bind_run
      by (unfold focus; cbn [host put_painter s0];
          rewrite save_without_pillow by assumption; reflexivity).
    cbn. rewrite Hcanvas. repeat split; assumption.
Qed.

End FixedListProperties.

(** ** More on the batch *)

Lemma fold_left_last {A B : Type} (f : B -> A) (l : list B) (a : A) :
  fold_left (fun _ x => f x) l a =
  match rev l with
  | [] => a
  | x :: _ => f x
  end.
Proof.
  induction l as [|x front IH] using rev_ind; [reflexivity|].
  rewrite fold_left_app, rev_app_distr. reflexivity.
Qed.

Lemma for_each_app {S A : Type} (l1 l2 : list A) (body : A -> Prog S unit)
      (s : S) :
  for_each (l1 ++ l2) body s = (for_each l1 body ;; for_each l2 body) s.
Proof.
  revert s. induction l1 as [|x rest IH]; intros s; cbn [app for_each].
  - reflexivity.
  - unfold bind. destruct (body x s) as [s1 [e|u]]; [reflexivity|].
    rewrite IH. reflexivity.
Qed.

Lemma seq_offset (start : Z) (a c k : nat) :
  map (fun i => start + Z.of_nat i) (seq (a + c) k) =
  map (fun i => start + Z.of_nat a + Z.of_nat i) (seq c k).
Proof.
  revert c. induction k as [|k IH]; intros c; [reflexivity|].
  cbn [seq map]. f_equal; [lia|].
  replace (S (a + c)) with (a + S c)%nat by lia. apply IH.
Qed.

Lemma range_from_split (start middle stop : Z) :
  start <= middle <= stop ->
  range_from start stop = range_from start middle ++ range_from middle stop.
Proof.
  intros Hm. unfold range_from, range. rewrite !map_map.
  replace (Z.to_nat (stop - start))
    with (Z.to_nat (middle - start) + Z.to_nat (stop - middle))%nat by lia.
  rewrite seq_app, map_app. f_equal.
  replace (0 + Z.to_nat (middle - start))%nat
    with (Z.to_nat (middle - start) + 0)%nat by lia.
  rewrite seq_offset. apply map_ext. intros i. lia.
Qed.

Section BatchEffects.
Import turtle GenProgram.
Context `{Geometry} `{RandomSource}.
Hypothesis contract : randint_contract _.

(** Everything one iteration does. *)
Lemma iteration_effect (index : Z) (p : Process) :
  exists (s : Process) (ps : Parameters) (g' : Rng),
    generate_parameters (rng p) = (g', inr ps) /\ in_domain ps /\
    iteration index p = (s, inr tt) /\
    rng s = g' /\ module_rng s = module_rng p /\
    stdout s = stdout p ++ [(index, ps)] /\
    exported s = exported p ++ [image_of (index, ps)] /\
    last_parameters s = Some ps /\
    canvas (artist s) = parameters_strokes ps /\
    pose (artist s) = pose fresh /\ shown (artist s) = false /\
    width (artist s) = line_width ps /\
    turtle.color (artist s) = GenProgram.color ps.
Proof.
  unfold iteration. do 4 run_step.
  match goal with
  | |- context [bind (focus rng put_rng generate_parameters) _ ?q] =>
      destruct (sampler_in_domain _ (rng q) contract) as (ps & g' & E & Hd);
      erewrite (bind_run _ _ q (put_rng g' q) ps)
        by (unfold focus; now rewrite E)
  end.
  do 2 run_step.
  erewrite bind_run.
  2:{ unfold on_artist, focus.
      rewrite draw_run by (unfold in_domain in Hd; lia). reflexivity. }
  eexists. exists ps, g'.
  split; [exact E|]. split; [exact Hd|]. split; [reflexivity|].
  cbn. repeat split.
Qed.

(** Everything the loop does: one printed line and one exported image per
    index, the parameters being the successive samples of the generator. *)
Lemma batch_loop (indices : list Z) (p : Process) :
  exists (s : Process) (lines : list (Z * Parameters)),
    for_each indices iteration p = (s, inr tt) /\
    stdout s = stdout p ++ lines /\
    map fst lines = indices /\
    map snd lines = samples (length indices) (rng p) /\
    Forall in_domain (map snd lines) /\
    exported s = exported p ++ map image_of lines /\
    module_rng s = module_rng p /\
    last_parameters s =
      fold_left (fun _ line => Some (snd line)) lines (last_parameters p) /\
    canvas (artist s) =
      fold_left (fun _ line => parameters_strokes (snd line)) lines
                (canvas (artist p)) /\
    (lines <> [] -> pose (artist s) = pose fresh /\ shown (artist s) = false).
Proof.
  revert p. induction indices as [|index rest IH]; intros p.
  - exists p, []. cbn. rewrite !app_nil_r. repeat split; try constructor.
    all: congruence.
  - destruct (iteration_effect index p)
      as (s1 & ps & g' & Egen & Hd & E1 & Hrng & Hmod & Hout & Hexp & Hlast
          & Hcanvas & Hpose & Hshown & _).
    destruct (IH s1)
      as (s2 & lines & E2 & Hout2 & Hfst & Hsnd & Hdom & Hexp2 & Hmod2 & Hlast2
          & Hcanvas2 & Hend).
    exists s2, ((index, ps) :: lines).
    cbn [for_each]. rewrite (bind_run _ _ _ _ _ E1).
    split; [exact E2|].
    split; [rewrite Hout2, Hout, <- app_assoc; reflexivity|].
    split; [cbn; now rewrite Hfst|].
    split; [cbn [length samples map snd]; rewrite Egen, Hsnd, Hrng; reflexivity|].
    split; [constructor; assumption|].
    split; [rewrite Hexp2, Hexp, <- app_assoc; reflexivity|].
    split; [congruence|].
    split; [cbn [fold_left snd]; now rewrite Hlast2, Hlast|].
    split; [cbn [fold_left snd]; now rewrite Hcanvas2, Hcanvas|].
    intros _. destruct lines as [|line lines'].
    + destruct rest; [|discriminate].
      cbn in E2. injection E2 as <-. split; assumption.
    + apply Hend. discriminate.
Qed.

(** The set-up of a run, seeded or not; it does not depend on the count. *)
Lemma run_started (seed : option Z) (p : Process) :
  exists s : Process,
    (forall count : Z,
       run count seed p = after_setup (range_from 1 (count + 1)) s) /\
    rng s = sampling_state seed (rng p) /\
    module_rng s = sampling_state seed (module_rng p) /\
    stdout s = stdout p /\ exported s = exported p /\
    last_parameters s = None /\
    artist s = set_shown false (note HideTurtle fresh).
Proof.
  destruct p as [g mg [f cm] t l o e]. unfold run.
  destruct seed as [sd|], f; eexists;
    (split; [intros count; do 6 run_step; reflexivity|]); repeat split.
Qed.

Lemma rev_nil_inv {A : Type} (l : list A) : rev l = [] -> l = [].
Proof.
  intros E. apply (f_equal (@rev A)) in E. now rewrite rev_involutive in E.
Qed.

(** The whole run in terms of the lines it prints. *)
Lemma run_effect (count : Z) (seed : option Z) (p : Process) :
  exists (s : Process) (lines : list (Z * Parameters)),
    run count seed p = (s, inr tt) /\
    stdout s = stdout p ++ lines /\
    map fst lines = range_from 1 (count + 1) /\
    map snd lines = samples (Z.to_nat count) (sampling_state seed (rng p)) /\
    Forall in_domain (map snd lines) /\
    exported s = exported p ++ map image_of lines ++ screenshot_of lines /\
    module_rng s = sampling_state seed (module_rng p) /\
    pose (artist s) = pose fresh /\ shown (artist s) = false.
Proof.
  destruct (run_started seed p)
    as (s0 & Hrun & Hrng & Hmod & Hout & Hexp & Hlast & Hartist).
  rewrite Hrun.
  destruct (batch_loop (range_from 1 (count + 1)) s0)
    as (s1 & lines & E & Hout1 & Hfst & Hsnd & Hdom & Hexp1 & Hmod1 & Hlast1
        & Hcanvas1 & Hend).
  assert (Hlen : length (range_from 1 (count + 1)) = Z.to_nat count).
  { unfold range_from. rewrite length_map, range_length. f_equal. lia. }
  rewrite Hlen, Hrng in Hsnd.
  rewrite Hlast, fold_left_last in Hlast1. rewrite fold_left_last in Hcanvas1.
  unfold after_setup. rewrite (bind_run _ _ _ _ _ E). run_step.
  unfold screenshot_of.
  destruct (rev lines) as [|line r] eqn:Er.
  - apply rev_nil_inv in Er. subst lines.
    rewrite Hlast1. do 1 run_step.
    eexists. exists []. split; [reflexivity|].
    cbn [map] in Hfst. rewrite <- Hfst in E. cbn in E. injection E as <-.
    cbn. rewrite Hartist, Hout, Hexp, Hmod, !app_nil_r.
    repeat split; assumption.
  - assert (Hne : lines <> []) by (intros ->; discriminate).
    destruct (Hend Hne) as [Hpose Hshown].
    rewrite Hlast1. do 1 run_step.
    eexists. exists lines. split; [reflexivity|].
    cbn. rewrite Hout1, Hexp1, Hout, Hexp, Hmod1, Hmod, Hcanvas1.
    repeat split; try assumption.
    now rewrite Er, <- app_assoc.
Qed.

End BatchEffects.

(** The end of a run prints nothing. *)
Lemma after_setup_stdout `{Geometry} `{RandomSource} (indices : list Z)
      (s0 s1 : GenProgram.Process) :
  for_each indices GenProgram.iteration s0 = (s1, inr tt) ->
  outcome_of (after_setup indices s0) = inr tt /\
  GenProgram.stdout (state_of (after_setup indices s0)) = GenProgram.stdout s1 /\
  (GenProgram.last_parameters s1 = None ->
   GenProgram.exported (state_of (after_setup indices s0)) = GenProgram.exported s1).
Proof.
  intros E. unfold after_setup. rewrite (bind_run _ _ _ _ _ E). run_step.
  destruct (GenProgram.last_parameters s1); run_step; cbn; repeat split.
  discriminate.
Qed.

(** X12: for every random source that honours the contract of [randint],
    a run, seeded or not, returns normally, and the parameter lines it
    prints beyond what was printed before are one per image, numbered from
    1 to the count, carrying the successive samples of the generator it
    samples from (the seeded one when a seed is given) -- nothing else
    draws from that generator -- each within the sampler's domain. *)
Theorem batch_prints_successive_samples (G : Geometry) (R : RandomSource)
        (count : Z) (seed : option Z) (p : GenProgram.Process) :
  randint_contract R ->
  outcome_of (GenProgram.run count seed p) = inr tt /\
  exists lines : list (Z * GenProgram.Parameters),
    GenProgram.stdout (state_of (GenProgram.run count seed p)) =
      GenProgram.stdout p ++ lines /\
    map fst lines = range_from 1 (count + 1) /\
    map snd lines =
      samples (Z.to_nat count) (sampling_state seed (GenProgram.rng p)) /\
    Forall in_domain (map snd lines).
Proof.
  intros Hc.
  destruct (run_effect Hc count seed p)
    as (s & lines & -> & Hout & Hfst & Hsnd & Hdom & _).
  split; [reflexivity|]. exists lines. repeat split; assumption.
Qed.

(** X13: in a process that starts with nothing printed and nothing
    exported, a run hands the exporter exactly one image per parameter line,
    under the index of that line and showing the rosette of that line
    alone (the canvas is cleared between iterations), followed, when at
    least one line was printed, by one screenshot showing the rosette of
    the last line. *)
Theorem batch_exports_one_picture_per_line (G : Geometry) (R : RandomSource)
        (count : Z) (seed : option Z) (p : GenProgram.Process) :
  randint_contract R ->
  GenProgram.stdout p = [] -> GenProgram.exported p = [] ->
  let p' := state_of (GenProgram.run count seed p) in
  GenProgram.exported p' =
    map image_of (GenProgram.stdout p') ++ screenshot_of (GenProgram.stdout p').
Proof.
  intros Hc Hout0 Hexp0. cbv zeta.
  destruct (run_effect Hc count seed p)
    as (s & lines & -> & Hout & _ & _ & _ & Hexp & _).
  cbn [state_of fst]. rewrite Hout, Hexp, Hout0, Hexp0. reflexivity.
Qed.

(** X14: a count of zero or less is an empty batch, whatever the random
    source does: the run returns normally, prints nothing, and hands
    nothing to the exporter -- not even the final screenshot. *)
Theorem empty_batch_leaves_nothing (G : Geometry) (R : RandomSource)
        (count : Z) (seed : option Z) (p : GenProgram.Process) :
  count <= 0 ->
  let p' := state_of (GenProgram.run count seed p) in
  outcome_of (GenProgram.run count seed p) = inr tt /\
  GenProgram.stdout p' = GenProgram.stdout p /\
  GenProgram.exported p' = GenProgram.exported p.
Proof.
  intros Hcount. cbv zeta.
  destruct (run_started seed p)
    as (s0 & Hrun & _ & _ & Hout & Hexp & Hlast & _).
  rewrite !Hrun.
  assert (Hnone : range_from 1 (count + 1) = []).
  { unfold range_from, range.
    replace (Z.to_nat (count + 1 - 1)) with 0%nat by lia. reflexivity. }
  rewrite Hnone.
  destruct (after_setup_stdout [] s0 s0 eq_refl) as (Hres & Hout' & Hexp').
  rewrite Hres, Hout', Hexp' by assumption. repeat split; assumption.
Qed.

(** X15: a longer batch extends a shorter one: from the same process and
    with the same seed argument, the parameter lines of a run of [k] images
    are a prefix of those of a run of [n >= k] images. *)
Theorem shorter_batch_is_a_prefix (G : Geometry) (R : RandomSource)
        (k n : Z) (seed : option Z) (p : GenProgram.Process) :
  randint_contract R ->
  0 <= k <= n ->
  exists more : list (Z * GenProgram.Parameters),
    GenProgram.stdout (state_of (GenProgram.run n seed p)) =
    GenProgram.stdout (state_of (GenProgram.run k seed p)) ++ more.
Proof.
  intros Hc Hkn.
  destruct (run_started seed p) as (s0 & Hrun & _). rewrite !Hrun.
  rewrite (range_from_split 1 (k + 1) (n + 1)) by lia.
  destruct (batch_loop Hc (range_from 1 (k + 1)) s0)
    as (s1 & lines1 & E1 & _).
  destruct (batch_loop Hc (range_from (k + 1) (n + 1)) s1)
    as (s2 & lines2 & E2 & Hout2 & _).
  assert (E : for_each (range_from 1 (k + 1) ++ range_from (k + 1) (n + 1))
                GenProgram.iteration s0 = (s2, inr tt)).
  { rewrite for_each_app, (bind_run _ _ _ _ _ E1). exact E2. }
  destruct (after_setup_stdout _ s0 s1 E1) as (_ & -> & _).
  destruct (after_setup_stdout _ s0 s2 E) as (_ & -> & _).
  exists lines2. exact Hout2.
Qed.

(** X16: whatever the sampler returns, [draw] accepts: for every random
    source that honours the contract of [randint] and every turtle, the
    sampled parameters pass both range checks of [draw], which returns
    normally having added the rosette they describe. *)
Theorem sampled_parameters_are_drawable (G : Geometry) (R : RandomSource)
        (g : Rng) (t : turtle.Turtle) :
  randint_contract R ->
  exists (ps : GenProgram.Parameters) (g' : Rng),
    GenProgram.generate_parameters g = (g', inr ps) /\
    outcome_of
      (DrawFigure.draw (GenProgram.base_elements ps) (GenProgram.size ps)
         (GenProgram.color ps) (GenProgram.line_width ps)
         (GenProgram.position ps) t) = inr tt /\
    turtle.canvas
      (state_of
         (DrawFigure.draw (GenProgram.base_elements ps) (GenProgram.size ps)
            (GenProgram.color ps) (GenProgram.line_width ps)
            (GenProgram.position ps) t)) =
      turtle.canvas t ++ parameters_strokes ps.
Proof.
  intros Hc.
  destruct (sampler_in_domain R g Hc) as (ps & g' & E & Hd).
  exists ps, g'. split; [exact E|].
  unfold in_domain in Hd.
  rewrite draw_run by lia. split; reflexivity.
Qed.

(** ** What a run leaves alone *)

Section BatchFrame.
Import turtle GenProgram.
Context `{Geometry} `{RandomSource}.

(** A program keeps an observation of the process when no run of it
    changes that observation, whether it returns or raises. *)
Lemma keeps_bind {A B C : Type} (f : Process -> C)
      (m : Prog Process A) (k : A -> Prog Process B) :
  (forall p, f (state_of (m p)) = f p) ->
  (forall a p, f (state_of (k a p)) = f p) ->
  forall p, f (state_of (bind m k p)) = f p.
Proof.
  intros Hm Hk p. unfold bind. specialize (Hm p).
  destruct (m p) as [s [e|a]]; cbn in Hm |- *; [exact Hm|].
  now rewrite Hk.
Qed.

Lemma keeps_for_each {A C : Type} (f : Process -> C) (l : list A)
      (body : A -> Prog Process unit) :
  (forall a p, f (state_of (body a p)) = f p) ->
  forall p, f (state_of (for_each l body p)) = f p.
Proof.
  intros Hbody. induction l as [|a rest IH]; intros p; cbn [for_each].
  - reflexivity.
  - apply keeps_bind; [apply Hbody | intros _; exact IH].
Qed.

Lemma keeps_on_artist {A C : Type} (f : Process -> C) (m : Prog Turtle A) :
  (forall t p, f (put_artist t p) = f p) ->
  forall p, f (state_of (on_artist m p)) = f p.
Proof.
  intros Hf p. unfold on_artist, focus.
  destruct (m (artist p)) as [t r]. apply Hf.
Qed.

Lemma iteration_keeps_module_rng (index : Z) (p : Process) :
  module_rng (state_of (iteration index p)) = module_rng p.
Proof.
  revert p. unfold iteration.
  repeat (apply keeps_bind; [|intros ?]);
    try (apply keeps_on_artist; reflexivity); try reflexivity.
  intros p. unfold focus. now destruct (generate_parameters (rng p)).
Qed.

End BatchFrame.

(** X17: the [random] module's own generator is seeded when a seed is
    given, and otherwise left as it was; no run ever draws from it,
    whatever the random source does and however the run ends. *)
Theorem module_generator_never_drawn_from (G : Geometry) (R : RandomSource)
        (count : Z) (seed : option Z) (p : GenProgram.Process) :
  GenProgram.module_rng (state_of (GenProgram.run count seed p)) =
  match seed with
  | Some s => seed_state s
  | None => GenProgram.module_rng p
  end.
Proof.
  destruct (run_started seed p) as (s0 & Hrun & _ & Hmod & _).
  rewrite Hrun. unfold after_setup.
  transitivity (GenProgram.module_rng s0); [|exact Hmod].
  revert s0 Hrun Hmod. intros s0 _ _. revert s0.
  repeat (apply keeps_bind; [|intros ?]).
  - apply keeps_for_each. intros a p0. apply iteration_keeps_module_rng.
  - reflexivity.
  - destruct a0; reflexivity.
  - apply keeps_on_artist. reflexivity.
Qed.

(** ** The files of a batch *)

Section BatchFiles.
Import ExportPipeline.
Context `{Pillow}.

Lemma path_of_suffix (o : GenProgram.OutputPath) :
  suffix (GenFiles.path_of o) = ".png"%string.
Proof. now destruct o. Qed.

Lemma sibling_injective (a b : GenProgram.OutputPath) :
  with_suffix (GenFiles.path_of a) ".eps"%string =
  with_suffix (GenFiles.path_of b) ".eps"%string -> a = b.
Proof.
  intros E. apply path_of_injective.
  pose proof (path_of_suffix a) as Ha. pose proof (path_of_suffix b) as Hb.
  destruct (GenFiles.path_of a) as [pa sa xa], (GenFiles.path_of b) as [pb sb xb].
  cbn in *. injection E as -> ->. congruence.
Qed.

(** One export with Pillow, seen from the files. *)
Lemma save_files (drawing : list turtle.Stroke) (o : GenProgram.OutputPath)
      (h : Host) :
  pillow_available h = true ->
  let h' := state_of (save_canvas_png drawing (GenFiles.path_of o) h) in
  outcome_of (save_canvas_png drawing (GenFiles.path_of o) h) = inr tt /\
  pillow_available h' = true /\
  files h' (GenFiles.path_of o) = Some (Png (rendered drawing)) /\
  files h' (with_suffix (GenFiles.path_of o) ".eps"%string) = None /\
  (forall q, q <> GenFiles.path_of o ->
             q <> with_suffix (GenFiles.path_of o) ".eps"%string ->
             files h' q = files h q).
Proof.
  intros Hyes. cbv zeta. rewrite save_with_pillow by assumption.
  cbn [state_of outcome_of fst snd unlink write mkdir files pillow_available].
  assert (Hne : GenFiles.path_of o <> with_suffix (GenFiles.path_of o) ".eps"%string).
  { intros E. pose proof (path_of_suffix o) as Hs. rewrite E in Hs. discriminate. }
  rewrite path_eqb_refl, (path_eqb_neq _ _ Hne), path_eqb_refl.
  repeat split; [assumption|].
  intros q Hq1 Hq2. now rewrite !path_eqb_neq.
Qed.

(** Replaying exports leaves alone every file that is neither an output
    nor the PostScript sibling of one. *)
Lemma replay_frame (handed : list (GenProgram.OutputPath * list turtle.Stroke))
      (h : Host) (q : Path) :
  pillow_available h = true ->
  (forall r, In r handed ->
     q <> GenFiles.path_of (fst r) /\
     q <> with_suffix (GenFiles.path_of (fst r)) ".eps"%string) ->
  outcome_of (GenFiles.replay handed h) = inr tt /\
  pillow_available (state_of (GenFiles.replay handed h)) = true /\
  files (state_of (GenFiles.replay handed h)) q = files h q.
Proof.
  revert h. induction handed as [|[o d] rest IH]; intros h Hyes Hq.
  - repeat split. exact Hyes.
  - destruct (save_files d o h Hyes) as (Hres & Hyes1 & _ & _ & Hframe).
    unfold GenFiles.replay. cbn [for_each fst snd].
    destruct (save_canvas_png d (GenFiles.path_of o) h) as [h1 r1] eqn:E1.
    cbn in Hres, Hyes1, Hframe. subst r1.
    rewrite (bind_run _ _ _ _ _ E1).
    destruct (IH h1 Hyes1) as (Hres2 & Hyes2 & Hfiles2).
    { intros r Hr. apply Hq. now right. }
    unfold GenFiles.replay in Hres2, Hyes2, Hfiles2.
    rewrite Hres2, Hyes2, Hfiles2.
    destruct (Hq (o, d) (or_introl eq_refl)) as [Hq1 Hq2].
    repeat split. now apply Hframe.
Qed.

(** Replaying exports with pairwise different outputs: every output holds
    the rendering of the canvas handed over for it, and no PostScript
    sibling is left. *)
Lemma replay_files (handed : list (GenProgram.OutputPath * list turtle.Stroke))
      (h : Host) :
  pillow_available h = true ->
  NoDup (map fst handed) ->
  forall r, In r handed ->
    files (state_of (GenFiles.replay handed h)) (GenFiles.path_of (fst r)) =
      Some (Png (rendered (snd r))) /\
    files (state_of (GenFiles.replay handed h))
          (with_suffix (GenFiles.path_of (fst r)) ".eps"%string) = None.
Proof.
  revert h. induction handed as [|[o d] rest IH]; intros h Hyes Hnd r Hr;
    [contradiction|].
  cbn [map fst] in Hnd. inversion Hnd as [|o' rest' Hnotin Hnd']; subst.
  destruct (save_files d o h Hyes) as (Hres & Hyes1 & Hpng & Heps & _).
  unfold GenFiles.replay. cbn [for_each fst snd].
  destruct (save_canvas_png d (GenFiles.path_of o) h) as [h1 r1] eqn:E1.
  cbn in Hres, Hyes1, Hpng, Heps. subst r1.
  rewrite (bind_run _ _ _ _ _ E1).
  destruct Hr as [<- | Hr].
  - cbn [fst snd].
    assert (Hother : forall r', In r' rest ->
              forall q, (q = GenFiles.path_of o \/
                         q = with_suffix (GenFiles.path_of o) ".eps"%string) ->
              q <> GenFiles.path_of (fst r') /\
              q <> with_suffix (GenFiles.path_of (fst r')) ".eps"%string).
    { intros r' Hr' q Hq.
      assert (Hdiff : fst r' <> o).
      { intros <-. apply Hnotin. now apply in_map. }
      destruct Hq as [-> | ->]; split; intros E.
      - apply Hdiff. symmetry. now apply path_of_injective.
      - pose proof (path_of_suffix o) as Hs. rewrite E in Hs. discriminate.
      - pose proof (path_of_suffix (fst r')) as Hs. rewrite <- E in Hs. discriminate.
      - apply Hdiff. symmetry. now apply sibling_injective. }
    destruct (replay_frame rest h1 (GenFiles.path_of o) Hyes1) as (_ & _ & F1).
    { intros r' Hr'. apply (Hother r' Hr'). now left. }
    destruct (replay_frame rest h1
                (with_suffix (GenFiles.path_of o) ".eps"%string) Hyes1)
      as (_ & _ & F2).
    { intros r' Hr'. apply (Hother r' Hr'). now right. }
    unfold GenFiles.replay in F1, F2. rewrite F1, F2. split; assumption.
  - apply (IH h1 Hyes1 Hnd' r Hr).
Qed.

End BatchFiles.

Lemma range_from_NoDup (start stop : Z) : NoDup (range_from start stop).
Proof.
  unfold range_from, range. rewrite map_map.
  apply Finite.Injective_map_NoDup; [|apply seq_NoDup].
  intros a b E. lia.
Qed.

(** X18: with Pillow, once the exporter has served a whole run that
    started with nothing printed and nothing exported, every printed line
    has its image on disk: the file named after the index of the line holds
    the rendering of the rosette of that line, not overwritten by any later
    export, and no PostScript file is left beside it. *)
Theorem batch_files_on_disk (G : Geometry) (R : RandomSource) (P : Pillow)
        (count : Z) (seed : option Z) (p : GenProgram.Process)
        (h : ExportPipeline.Host) :
  randint_contract R ->
  GenProgram.stdout p = [] -> GenProgram.exported p = [] ->
  ExportPipeline.pillow_available h = true ->
  let p' := state_of (GenProgram.run count seed p) in
  let h' := state_of (GenFiles.replay (GenProgram.exported p') h) in
  forall (index : Z) (ps : GenProgram.Parameters),
    In (index, ps) (GenProgram.stdout p') ->
    ExportPipeline.files h' (GenFiles.path_of (GenProgram.ImageFile index)) =
      Some (ExportPipeline.Png (rendered (parameters_strokes ps))) /\
    ExportPipeline.files h'
      (with_suffix (GenFiles.path_of (GenProgram.ImageFile index)) ".eps"%string) =
      None.
Proof.
  intros Hc Hout0 Hexp0 Hyes. cbv zeta. intros index ps Hin.
  destruct (run_effect Hc count seed p)
    as (s & lines & E & Hout & Hfst & _ & _ & Hexp & _).
  rewrite E in Hin |- *. cbn [state_of fst] in Hin |- *.
  rewrite Hout, Hout0 in Hin. cbn [app] in Hin.
  rewrite Hexp, Hexp0. cbn [app].
  refine (replay_files (map image_of lines ++ screenshot_of lines) h Hyes
            _ (image_of (index, ps)) _).
  - rewrite map_app, map_map. cbn [image_of fst].
    rewrite <- (map_map fst GenProgram.ImageFile), Hfst.
    unfold screenshot_of. destruct (rev lines) as [|line r]; cbn [map fst].
    + rewrite app_nil_r. apply Finite.Injective_map_NoDup; [|apply range_from_NoDup].
      intros a b E'. now injection E'.
    + apply NoDup_app.
      * apply Finite.Injective_map_NoDup; [|apply range_from_NoDup].
        intros a b E'. now injection E'.
      * repeat constructor. intros [].
      * intros o Ho [<- | []]. apply in_map_iff in Ho.
        destruct Ho as (i & Hi & _). discriminate.
  - apply in_or_app. left. now apply in_map.
Qed.

(** ** Concrete runs of the further properties *)

Section FurtherRuns.
Import turtle Samples.
Local Existing Instance Bhaskara.geometry.
Local Existing Instance Lcg.source.
Local Existing Instance Sketch.pillow.

Lemma draw_reports_first_violation_witness :
  (2 < 3 \/ 15 < 2 \/ 9 < 1 \/ 5 < 9) /\
  DrawFigure.draw 2 120 (0, 120, 255) 9 (0, 0) wandering =
  (wandering,
   inl (ValueError "Parameter 'base_elements' must be in range 3..15."%string)).
Proof.
  assert (Hbad : 2 < 3 \/ 15 < 2 \/ 9 < 1 \/ 5 < 9) by lia.
  split; [exact Hbad|].
  exact (draw_reports_first_violation 2 120 (0, 120, 255) 9 (0, 0) wandering Hbad).
Defined.

Lemma draw_adds_only_petal_arcs_witness :
  3 <= 7 <= 15 /\ 1 <= 2 <= 5 /\
  exists added : list Stroke,
    canvas (state_of (DrawFigure.draw 7 140 (0, 120, 255) 2 (-260, 60) wandering)) =
      canvas wandering ++ added /\
    length added = 14%nat /\
    Forall (is_petal_arc 140 2 (0, 120, 255)) added.
Proof.
  assert (Hn : 3 <= 7 <= 15) by lia. assert (Hlw : 1 <= 2 <= 5) by lia.
  split; [exact Hn|]. split; [exact Hlw|].
  exact (draw_adds_only_petal_arcs 7 140 (0, 120, 255) 2 (-260, 60) wandering Hn Hlw).
Defined.



Lemma save_leaves_png_and_no_eps_witness :
  ExportPipeline.pillow_available (Sketch.blank true) = true /\
  suffix ProgramScript.PNG_OUTPUT_PATH <> ".eps"%string /\
  ExportPipeline.files
    (state_of (ExportPipeline.save_canvas_png (canvas fresh)
                 ProgramScript.PNG_OUTPUT_PATH (Sketch.blank true)))
    (with_suffix ProgramScript.PNG_OUTPUT_PATH ".eps"%string) = None.
Proof.
  assert (Hs : suffix ProgramScript.PNG_OUTPUT_PATH <> ".eps"%string)
    by discriminate.
  split; [reflexivity|]. split; [exact Hs|].
  destruct (save_leaves_png_and_no_eps (canvas fresh)
              ProgramScript.PNG_OUTPUT_PATH (Sketch.blank true) eq_refl Hs)
    as (_ & _ & Heps & _).
  exact Heps.
Defined.

Lemma save_to_eps_destination_leaves_nothing_witness :
  ExportPipeline.pillow_available (Sketch.blank true) = true /\
  suffix (mkPath "task1"%string "screenshot"%string ".eps"%string) = ".eps"%string /\
  ExportPipeline.files
    (state_of (ExportPipeline.save_canvas_png (canvas fresh)
                 (mkPath "task1"%string "screenshot"%string ".eps"%string) (Sketch.blank true)))
    (mkPath "task1"%string "screenshot"%string ".eps"%string) = None.
Proof.
  split; [reflexivity|]. split; [reflexivity|].
  exact (proj2 (save_to_eps_destination_leaves_nothing (canvas fresh)
                  (mkPath "task1"%string "screenshot"%string ".eps"%string) (Sketch.blank true)
                  eq_refl eq_refl)).
Defined.

Lemma fixed_list_saves_every_composition_witness :
  Forall accepted Program.COMPOSITIONS /\
  outcome_of (ProgramScript.run Program.COMPOSITIONS session) = inr tt.
Proof.
  assert (Hall : Forall accepted Program.COMPOSITIONS)
    by (repeat constructor; cbn; lia).
  split; [exact Hall|].
  exact (proj1 (fixed_list_saves_every_composition Program.COMPOSITIONS session Hall)).
Defined.

Lemma fixed_list_aborts_before_saving_witness :
  Forall accepted [(7, 140, (0, 120, 255), 2, (-260, 60))] /\
  ~ accepted (16, 110, (255, 105, 0), 3, (0, -20)) /\
  ProgramScript.host
    (state_of (ProgramScript.run
                 ([(7, 140, (0, 120, 255), 2, (-260, 60))] ++
                  (16, 110, (255, 105, 0), 3, (0, -20)) ::
                  [(3, 160, (60, 200, 120), 4, (260, 80))]) session)) =
  ProgramScript.host session.
Proof.
  assert (Hall : Forall accepted [(7, 140, (0, 120, 255), 2, (-260, 60))])
    by (repeat constructor; cbn; lia).
  assert (Hbad : ~ accepted (16, 110, (255, 105, 0), 3, (0, -20)))
    by (cbn; lia).
  split; [exact Hall|]. split; [exact Hbad|].
  destruct (fixed_list_aborts_before_saving
              [(7, 140, (0, 120, 255), 2, (-260, 60))]
              [(3, 160, (60, 200, 120), 4, (260, 80))]
              (16, 110, (255, 105, 0), 3, (0, -20)) session Hall Hbad)
    as (_ & _ & Hhost).
  exact Hhost.
Defined.

Lemma batch_prints_successive_samples_witness :
  randint_contract Lcg.source /\
  outcome_of (GenProgram.run 5 (Some 42) process_a) = inr tt.
Proof.
  split; [exact lcg_contract|].
  exact (proj1 (batch_prints_successive_samples Bhaskara.geometry Lcg.source
                  5 (Some 42) process_a lcg_contract)).
Defined.

Lemma batch_exports_one_picture_per_line_witness :
  randint_contract Lcg.source /\
  GenProgram.stdout process_a = [] /\ GenProgram.exported process_a = [] /\
  GenProgram.exported (state_of (GenProgram.run 5 (Some 42) process_a)) =
    map image_of (GenProgram.stdout (state_of (GenProgram.run 5 (Some 42) process_a))) ++
    screenshot_of (GenProgram.stdout (state_of (GenProgram.run 5 (Some 42) process_a))).
Proof.
  split; [exact lcg_contract|]. split; [reflexivity|]. split; [reflexivity|].
  exact (batch_exports_one_picture_per_line Bhaskara.geometry Lcg.source
           5 (Some 42) process_a lcg_contract eq_refl eq_refl).
Defined.

Lemma empty_batch_leaves_nothing_witness :
  0 <= 0 /\
  GenProgram.exported (state_of (GenProgram.run 0 (Some 42) process_b)) =
  GenProgram.exported process_b.
Proof.
  assert (Hcount : 0 <= 0) by lia.
  split; [exact Hcount|].
  destruct (empty_batch_leaves_nothing Bhaskara.geometry Lcg.source
              0 (Some 42) process_b Hcount) as (_ & _ & Hexp).
  exact Hexp.
Defined.

Lemma shorter_batch_is_a_prefix_witness :
  randint_contract Lcg.source /\ 0 <= 2 <= 5 /\
  exists more : list (Z * GenProgram.Parameters),
    GenProgram.stdout (state_of (GenProgram.run 5 None process_a)) =
    GenProgram.stdout (state_of (GenProgram.run 2 None process_a)) ++ more.
Proof.
  assert (Hkn : 0 <= 2 <= 5) by lia.
  split; [exact lcg_contract|]. split; [exact Hkn|].
  exact (shorter_batch_is_a_prefix Bhaskara.geometry Lcg.source
           2 5 None process_a lcg_contract Hkn).
Defined.

Lemma sampled_parameters_are_drawable_witness :
  randint_contract Lcg.source /\
  exists (ps : GenProgram.Parameters) (g' : Z),
    GenProgram.generate_parameters 42 = (g', inr ps) /\
    outcome_of
      (DrawFigure.draw (GenProgram.base_elements ps) (GenProgram.size ps)
         (GenProgram.color ps) (GenProgram.line_width ps)
         (GenProgram.position ps) wandering) = inr tt.
Proof.
  split; [exact lcg_contract|].
  destruct (sampled_parameters_are_drawable Bhaskara.geometry Lcg.source
              42 wandering lcg_contract) as (ps & g' & E & Hres & _).
  exists ps, g'. split; [exact E | exact Hres].
Defined.

Lemma batch_files_on_disk_witness :
  randint_contract Lcg.source /\
  GenProgram.stdout process_a = [] /\ GenProgram.exported process_a = [] /\
  ExportPipeline.pillow_available (Sketch.blank true) = true /\
  forall (index : Z) (ps : GenProgram.Parameters),
    In (index, ps) (GenProgram.stdout (state_of (GenProgram.run 5 (Some 42) process_a))) ->
    ExportPipeline.files
      (state_of (GenFiles.replay
                   (GenProgram.exported (state_of (GenProgram.run 5 (Some 42) process_a)))
                   (Sketch.blank true)))
      (GenFiles.path_of (GenProgram.ImageFile index)) =
    Some (ExportPipeline.Png (rendered (parameters_strokes ps))).
Proof.
  split; [exact lcg_contract|]. split; [reflexivity|]. split; [reflexivity|].
  split; [reflexivity|].
  intros index ps Hin.
  exact (proj1 (batch_files_on_disk Bhaskara.geometry Lcg.source Sketch.pillow
                  5 (Some 42) process_a (Sketch.blank true)
                  lcg_contract eq_refl eq_refl eq_refl index ps Hin)).
Defined.

(** The names of the first, the tenth and the hundredth image. *)
Example image_names :
  map Fmt.format_03d [1; 10; 100; 1000; -1] =
  ["001"; "010"; "100"; "1000"; "-01"]%string.
Proof. reflexivity. Qed.

(** The fixed-list script with Pillow leaves one PNG and no PostScript;
    without Pillow it leaves the PostScript and no PNG. *)
Example fixed_list_files :
  let with_pillow := ProgramScript.host (state_of (ProgramScript.main session)) in
  let without :=
    ProgramScript.host
      (state_of (ProgramScript.main
                   (ProgramScript.mkSession (module_loaded 1) wandering
                      (Sketch.blank false)))) in
  ExportPipeline.file_exists ProgramScript.PNG_OUTPUT_PATH with_pillow = true /\
  ExportPipeline.file_exists
    (with_suffix ProgramScript.PNG_OUTPUT_PATH ".eps"%string) with_pillow = false /\
  ExportPipeline.file_exists ProgramScript.PNG_OUTPUT_PATH without = false /\
  ExportPipeline.file_exists
    (with_suffix ProgramScript.PNG_OUTPUT_PATH ".eps"%string) without = true.
Proof. vm_compute. repeat split. Qed.

End FurtherRuns.
